(** * MiniWoB action space ([miniwob/action.py])

    A shallow embedding of the action-space configuration
    ([ActionSpaceConfig]) and of the dispatcher ([execute_action]),
    followed by the properties of the module's specification.

    Python values are embedded as follows.
    - [int] is [Z]; [float] is the kernel's binary64 [float], so that
      [(0.5 + i) * (w / b)] is evaluated with the rounding of the
      interpreter.
    - A raised exception is the [Raise] branch of [result].
    - The sets and the dict of the module are [gset] and [gmap].
    - The calls into [miniwob.selenium_actions] are recorded in the
      order in which they are made; what such a call does with the
      browser is the [ChromeDriver]'s business, including its failure. *)

From Stdlib Require Import ZArith Lia PrimFloat SpecFloat FloatOps.
From stdpp Require Import gmap strings list.

Local Open Scope Z_scope.

(** ** The action kinds *)

(** [class ActionTypes(str, Enum)] *)
Inductive ActionTypes :=
  | NONE
  | MOVE_COORDS
  | CLICK_COORDS
  | DBLCLICK_COORDS
  | MOUSEDOWN_COORDS
  | MOUSEUP_COORDS
  | CLICK_ELEMENT
  | SCROLL_UP
  | SCROLL_DOWN
  | PRESS_KEY
  | TYPE_TEXT
  | TYPE_FIELD
  | FOCUS_ELEMENT_AND_TYPE_TEXT
  | FOCUS_ELEMENT_AND_TYPE_FIELD.

#[global] Instance ActionTypes_eq_dec : EqDecision ActionTypes.
Proof. solve_decision. Defined.

(** The position of a member in the class body; it makes the enumeration
    countable, hence usable as an element of a [gset] and as a key of a
    [gmap]. *)
Definition ActionTypes_index (k : ActionTypes) : nat :=
  match k with
  | NONE => 0 | MOVE_COORDS => 1 | CLICK_COORDS => 2 | DBLCLICK_COORDS => 3
  | MOUSEDOWN_COORDS => 4 | MOUSEUP_COORDS => 5 | CLICK_ELEMENT => 6
  | SCROLL_UP => 7 | SCROLL_DOWN => 8 | PRESS_KEY => 9 | TYPE_TEXT => 10
  | TYPE_FIELD => 11 | FOCUS_ELEMENT_AND_TYPE_TEXT => 12
  | FOCUS_ELEMENT_AND_TYPE_FIELD => 13
  end%nat.

Definition ActionTypes_members : list ActionTypes :=
  [ NONE; MOVE_COORDS; CLICK_COORDS; DBLCLICK_COORDS; MOUSEDOWN_COORDS;
    MOUSEUP_COORDS; CLICK_ELEMENT; SCROLL_UP; SCROLL_DOWN; PRESS_KEY;
    TYPE_TEXT; TYPE_FIELD; FOCUS_ELEMENT_AND_TYPE_TEXT;
    FOCUS_ELEMENT_AND_TYPE_FIELD ].

#[global] Instance ActionTypes_countable : Countable ActionTypes.
Proof.
  refine (inj_countable ActionTypes_index
            (fun n => ActionTypes_members !! n) _).
  by intros [].
Defined.

Definition COORDS_ACTIONS : gset ActionTypes :=
  {[ MOVE_COORDS; CLICK_COORDS; DBLCLICK_COORDS; MOUSEDOWN_COORDS;
     MOUSEUP_COORDS ]}.

Definition ELEMENT_ACTIONS : gset ActionTypes :=
  {[ CLICK_ELEMENT; FOCUS_ELEMENT_AND_TYPE_TEXT;
     FOCUS_ELEMENT_AND_TYPE_FIELD ]}.

Definition TEXT_ACTIONS : gset ActionTypes :=
  {[ TYPE_TEXT; FOCUS_ELEMENT_AND_TYPE_TEXT ]}.

Definition FIELD_ACTIONS : gset ActionTypes :=
  {[ TYPE_FIELD; FOCUS_ELEMENT_AND_TYPE_FIELD ]}.

(** ** Exceptions *)

(** The messages of the [ValueError]s that can be raised: three by the
    module, one by [int()] applied to a NaN. *)
Inductive ValueError_message :=
  | Unknown_preset_name (name : string)
  | Screen_size_must_be_specified
  | Unsupported_action_type (action_type : ActionTypes)
  | Cannot_convert_float_NaN_to_integer.

(** The key a [KeyError] carries: a field name of an action, or the action
    kind that [_ACTION_TYPE_TO_SELENIUM_ACTION_FN] has no entry for. *)
Inductive dict_key :=
  | Key_str (s : string)
  | Key_ActionTypes (k : ActionTypes).

Inductive exn :=
  | ValueError (msg : ValueError_message)
  | KeyError (key : dict_key)
  | IndexError
  | TypeError
  | OverflowError
  | ZeroDivisionError
  | WebDriverException (msg : string).

Inductive result (A : Type) :=
  | OK (a : A)
  | Raise (e : exn).
Arguments OK {A} a.
Arguments Raise {A} e.

#[global] Instance result_ret : MRet result := fun A a => OK a.
#[global] Instance result_bind : MBind result :=
  fun A B f r => match r with OK a => f a | Raise e => Raise e end.

(** The spec's names for the failures of the module. All three are
    [ValueError]s in the code, told apart by their message. *)
Definition ConfigurationError (e : exn) : Prop :=
  e = ValueError Screen_size_must_be_specified
  \/ exists name, e = ValueError (Unknown_preset_name name).

Definition UnsupportedActionError (k : ActionTypes) (e : exn) : Prop :=
  e = ValueError (Unsupported_action_type k).

(** ** Numbers *)

(** A number is an [int] or a [float] (the scalars of numpy behave as one
    of the two for what is done with them here). *)
Inductive num :=
  | Int (z : Z)
  | Float (f : float).

(** The first magnitude that no longer rounds to a finite binary64:
    halfway between the largest finite double and [2^1024]. *)
Definition DBL_OVERFLOW : Z := 2 ^ 1024 - 2 ^ 970.

(** The double nearest to an integer, ties to even. *)
Definition nearest_double (z : Z) : float :=
  SF2Prim (binary_normalize prec emax z 0 false).

(** [float(z)] for an [int]: the nearest double; [OverflowError] when that
    is not finite. *)
Definition float_of_int (z : Z) : result float :=
  if Z.abs z <? DBL_OVERFLOW then OK (nearest_double z)
  else Raise OverflowError.

(** [int(f)] for a [float]: truncation towards zero. *)
Definition int_of_float (f : float) : result Z :=
  match Prim2SF f with
  | S754_nan => Raise (ValueError Cannot_convert_float_NaN_to_integer)
  | S754_infinity _ => Raise OverflowError
  | S754_zero _ => OK 0
  | S754_finite s m e =>
      OK (cond_Zopp s (if 0 <=? e then Z.pos m * 2 ^ e
                       else Z.pos m / 2 ^ (- e)))
  end.

(** [int(x)] and [float(x)] *)
Definition py_int (x : num) : result Z :=
  match x with
  | Int z => OK z
  | Float f => int_of_float f
  end.

Definition py_float (x : num) : result float :=
  match x with
  | Int z => float_of_int z
  | Float f => OK f
  end.

(** Truth value of a number: zero (of either sign) is false, NaN is true. *)
Definition py_bool (x : num) : bool :=
  match x with
  | Int z => negb (z =? 0)
  | Float f => negb (f =? 0)%float
  end.

(** [not o] for an optional number: [None] and zero are false. *)
Definition py_not (o : option num) : bool :=
  match o with
  | None => true
  | Some x => negb (py_bool x)
  end.

(** [x + z] for a [float] and an [int]: the [int] is converted first. *)
Definition float_add_int (x : float) (z : Z) : result float :=
  fz ← float_of_int z; OK (x + fz)%float.

(** [a / b] for two [int]s: the correctly rounded quotient. The quotient is
    taken with more than 64 significant bits and a sticky last bit, which
    rounds as the exact value does. *)
Definition int_true_divide (a b : Z) : result float :=
  if b =? 0 then Raise ZeroDivisionError
  else if DBL_OVERFLOW * Z.abs b <=? Z.abs a then Raise OverflowError
  else
    let negate := xorb (a <? 0) (b <? 0) in
    let s := Z.max 0 (Z.log2 (Z.abs b) + 66 - Z.log2 (Z.abs a)) in
    let q := (Z.abs a * 2 ^ s) / Z.abs b in
    let sticky := if (Z.abs a * 2 ^ s) mod Z.abs b =? 0 then 0 else 1 in
    OK (SF2Prim (binary_normalize prec emax
                   (cond_Zopp negate (2 * q + sticky)) (- s - 1) negate)).

(** [x / b] for a number and an [int]. For a [float] numerator the [int]
    is converted, and the division is refused when the converted divisor
    is [0.0], which it is exactly when [b] is [0]. *)
Definition true_divide (x : num) (b : Z) : result float :=
  match x with
  | Int a => int_true_divide a b
  | Float f =>
      fb ← float_of_int b;
      if b =? 0 then Raise ZeroDivisionError else OK (f / fb)%float
  end.

(** [l[i]] for a sequence: a negative index counts from the end. *)
Definition list_getitem {A : Type} (l : list A) (i : Z) : result A :=
  let n := Z.of_nat (length l) in
  let i' := if i <? 0 then i + n else i in
  if (i' <? 0) || (n <=? i') then Raise IndexError
  else match l !! Z.to_nat i' with
       | Some x => OK x
       | None => Raise IndexError
       end.

(** [d[key]] for a field of a dict that may be absent. *)
Definition dict_getitem {A : Type} (key : string) (o : option A) : result A :=
  match o with
  | Some v => OK v
  | None => Raise (KeyError (Key_str key))
  end.

(** ** The spaces of gymnasium and the arrays of numpy

    Both libraries are external: a space is the constructor that was called
    together with its arguments, and an array is the sequence it was built
    from together with the requested element type. *)

Inductive np_dtype := np_float32.

Record ndarray := np_array { elements : list num; dtype : option np_dtype }.

(** [text_charset : Union[str, Set[str]]] *)
Inductive charset :=
  | Charset_str (s : string)
  | Charset_set (cs : gset string).

Module spaces.
Inductive Space :=
  | Discrete (n : Z)
  | MultiDiscrete (nvec : ndarray)
  | Box (low high : ndarray)
  | Text (max_length : Z) (chars : charset).

(** [spaces.Dict(space)] wraps the dict of named sub-spaces. *)
Record DictSpace := Dict { fields : gmap string Space }.
End spaces.

(** ** Constants of [miniwob.constants]

    That module is not part of the sources at hand; its values are taken as
    parameters. *)
Record constants := {
  ASCII_CHARSET : charset;
  DEFAULT_ALLOWED_KEYS : list string;
  MAX_FIELDS : Z;
  MAX_REF : Z;
  TYPING_MAX_LENGTH : Z;
}.

(** ** The configuration *)

(** [@dataclass class ActionSpaceConfig] *)
Record ActionSpaceConfig := {
  action_types : list ActionTypes;
  screen_width : option num;
  screen_height : option num;
  coord_bins : option (Z * Z);
  allowed_keys : list string;
  text_max_len : Z;
  text_charset : charset;
}.

(** The generated [__init__] with only [action_types] given: every other
    field takes its default. *)
Definition ActionSpaceConfig_init (K : constants)
    (types : list ActionTypes) : ActionSpaceConfig :=
  {| action_types := types;
     screen_width := None;
     screen_height := None;
     coord_bins := None;
     allowed_keys := DEFAULT_ALLOWED_KEYS K;
     text_max_len := TYPING_MAX_LENGTH K;
     text_charset := ASCII_CHARSET K |}.

(** [ActionSpaceConfig.get_preset] *)
Definition get_preset (K : constants) (name : string)
    : result ActionSpaceConfig :=
  if decide (name = "all_supported")
  then OK (ActionSpaceConfig_init K
             [ NONE; CLICK_COORDS; CLICK_ELEMENT; TYPE_TEXT;
               FOCUS_ELEMENT_AND_TYPE_TEXT ])
  else Raise (ValueError (Unknown_preset_name name)).

(** [group.intersection(self.action_types)], and its truth value: a set
    is true when it is not empty. *)
Definition intersection (group : gset ActionTypes)
    (types : list ActionTypes) : gset ActionTypes :=
  group ∩ list_to_set types.

Definition set_bool (s : gset ActionTypes) : bool :=
  bool_decide (s ≠ ∅).

(** [ActionSpaceConfig.get_action_space]. The dict [space] is threaded
    through the five conditional assignments in the order of the source.
    Past the guard on the screen size both dimensions are present, so the
    last case of the [match] that reads them is never taken. *)
Definition get_action_space (K : constants) (self : ActionSpaceConfig)
    : result spaces.DictSpace :=
  let space : gmap string spaces.Space := ∅ in
  let space :=
    <["action_type" := spaces.Discrete (Z.of_nat (length (action_types self)))]>
      space in
  space ←
    (if set_bool (intersection COORDS_ACTIONS (action_types self)) then
       if py_not (screen_width self) || py_not (screen_height self) then
         Raise (ValueError Screen_size_must_be_specified)
       else
         match coord_bins self, screen_width self, screen_height self with
         | Some (bx, by_), _, _ =>
             OK (<["coords" :=
                     spaces.MultiDiscrete (np_array [Int bx; Int by_] None)]>
                   space)
         | None, Some w, Some h =>
             OK (<["coords" :=
                     spaces.Box
                       (np_array [Float 0; Float 0] (Some np_float32))
                       (np_array [w; h] (Some np_float32))]>
                   space)
         | None, _, _ => Raise (ValueError Screen_size_must_be_specified)
         end
     else OK space);
  let space :=
    if set_bool (intersection ELEMENT_ACTIONS (action_types self))
    then <["ref" := spaces.Discrete (MAX_REF K)]> space else space in
  let space :=
    if bool_decide (PRESS_KEY ∈ action_types self)
    then <["key" := spaces.Discrete (Z.of_nat (length (allowed_keys self)))]>
           space
    else space in
  let space :=
    if set_bool (intersection TEXT_ACTIONS (action_types self))
    then <["text" := spaces.Text (text_max_len self) (text_charset self)]>
           space
    else space in
  let space :=
    if set_bool (intersection FIELD_ACTIONS (action_types self))
    then <["field" := spaces.Discrete (MAX_FIELDS K)]> space else space in
  OK (spaces.Dict space).

(** ** Action instances *)

(** [Action = Dict[str, Any]]. The keys that the module reads, each absent
    ([None]) or holding a value of the shape its entry of the action space
    prescribes: an index, a sequence of numbers, a number, a string. *)
Record Action := {
  action_type : option Z;
  coords : option (list num);
  ref : option num;
  text : option string;
}.

(** [ActionSpaceConfig.compute_raw_coords]. A pair of bin counts is a
    non-empty tuple, hence true whenever it is present. Past the guard on
    the screen size both dimensions are present, so the last case of the
    [match] that reads them is never taken. *)
Definition compute_raw_coords (self : ActionSpaceConfig) (action : Action)
    : result (float * float) :=
  match coord_bins self with
  | Some (bx, by_) =>
      if py_not (screen_width self) || py_not (screen_height self) then
        Raise (ValueError Screen_size_must_be_specified)
      else
        match screen_width self, screen_height self with
        | Some w, Some h =>
            c ← dict_getitem "coords" (coords action);
            x ← list_getitem c 0;
            i ← py_int x;
            ci ← float_add_int 0.5 i;
            cell_w ← true_divide w bx;
            let left_ := (ci * cell_w)%float in
            c ← dict_getitem "coords" (coords action);
            y ← list_getitem c 1;
            j ← py_int y;
            cj ← float_add_int 0.5 j;
            cell_h ← true_divide h by_;
            let top := (cj * cell_h)%float in
            OK (left_, top)
        | _, _ => Raise (ValueError Screen_size_must_be_specified)
        end
  | None =>
      c ← dict_getitem "coords" (coords action);
      x ← list_getitem c 0;
      left_ ← py_float x;
      c ← dict_getitem "coords" (coords action);
      y ← list_getitem c 1;
      top ← py_float y;
      OK (left_, top)
  end.

(** ** The driver *)

(** The functions of [miniwob.selenium_actions] that the module refers to.
    That module is not part of the sources at hand: a function is known by
    its name only. *)
Inductive selenium_fn :=
  | execute_move_coords
  | execute_click_coords
  | execute_dblclick_coords
  | execute_mousedown_coords
  | execute_mouseup_coords
  | execute_click_element
  | execute_type_text
  | execute_focus_element_and_type_text.

Inductive argument :=
  | Arg_float (f : float)
  | Arg_int (z : Z)
  | Arg_str (s : string).

(** One call [fn(args..., driver)]. *)
Record selenium_call := Call { callee : selenium_fn; arguments : list argument }.

(** The driver handle, seen from the dispatcher: a call made on it returns
    or raises, and the dispatcher neither catches nor retries. *)
Definition ChromeDriver := selenium_call -> result unit.

(** A computation of the dispatcher: the calls made on the driver so far,
    and how the computation ended. *)
Record Eff (A : Type) := mkEff { calls : list selenium_call; outcome : result A }.
Arguments mkEff {A} calls outcome.
Arguments calls {A} _.
Arguments outcome {A} _.

#[global] Instance Eff_ret : MRet Eff := fun A a => mkEff [] (OK a).
#[global] Instance Eff_bind : MBind Eff :=
  fun A B f m =>
    match outcome m with
    | OK a => mkEff (calls m ++ calls (f a)) (outcome (f a))
    | Raise e => mkEff (calls m) (Raise e)
    end.

(** A step that cannot touch the driver. *)
Definition pure {A : Type} (r : result A) : Eff A := mkEff [] r.

(** A call on the driver. *)
Definition invoke (driver : ChromeDriver) (fn : selenium_fn)
    (args : list argument) : Eff unit :=
  mkEff [Call fn args] (driver (Call fn args)).

(** Calling the value found in the table: [None] is not callable. *)
Definition invoke_value (driver : ChromeDriver) (v : option selenium_fn)
    (args : list argument) : Eff unit :=
  match v with
  | Some fn => invoke driver fn args
  | None => pure (Raise TypeError)
  end.

(** ** The dispatcher *)

Definition _ACTION_TYPE_TO_SELENIUM_ACTION_FN
    : gmap ActionTypes (option selenium_fn) :=
  list_to_map
    [ (NONE, None);
      (MOVE_COORDS, Some execute_move_coords);
      (CLICK_COORDS, Some execute_click_coords);
      (DBLCLICK_COORDS, Some execute_dblclick_coords);
      (MOUSEDOWN_COORDS, Some execute_mousedown_coords);
      (MOUSEUP_COORDS, Some execute_mouseup_coords);
      (CLICK_ELEMENT, Some execute_click_element);
      (TYPE_TEXT, Some execute_type_text);
      (FOCUS_ELEMENT_AND_TYPE_TEXT, Some execute_focus_element_and_type_text) ].

(** [table[key]] *)
Definition table_getitem (key : ActionTypes) : result (option selenium_fn) :=
  match _ACTION_TYPE_TO_SELENIUM_ACTION_FN !! key with
  | Some v => OK v
  | None => Raise (KeyError (Key_ActionTypes key))
  end.

(** [config.action_types[action["action_type"]]], the first statement of
    [execute_action]. *)
Definition resolve_action_type (action : Action) (config : ActionSpaceConfig)
    : result ActionTypes :=
  t ← dict_getitem "action_type" (action_type action);
  list_getitem (action_types config) t.

(** [execute_action] *)
Definition execute_action (action : Action) (config : ActionSpaceConfig)
    (driver : ChromeDriver) : Eff unit :=
  action_type ← pure (resolve_action_type action config);
  selenium_action_fn ← pure (table_getitem action_type);
  if decide (action_type = NONE) then
    mret tt
  else if decide (action_type ∈ COORDS_ACTIONS) then
    '(left_, top) ← pure (compute_raw_coords config action);
    invoke_value driver selenium_action_fn [Arg_float left_; Arg_float top]
  else if decide (action_type = CLICK_ELEMENT) then
    r ← pure (x ← dict_getitem "ref" (ref action); py_int x);
    invoke driver execute_click_element [Arg_int r]
  else if decide (action_type = TYPE_TEXT) then
    s ← pure (dict_getitem "text" (text action));
    invoke driver execute_type_text [Arg_str s]
  else if decide (action_type = FOCUS_ELEMENT_AND_TYPE_TEXT) then
    r ← pure (x ← dict_getitem "ref" (ref action); py_int x);
    s ← pure (dict_getitem "text" (text action));
    invoke driver execute_focus_element_and_type_text [Arg_int r; Arg_str s]
  else
    pure (Raise (ValueError (Unsupported_action_type action_type))).

(** ** The vocabulary of the statements *)

(** "Each bin index [i] on an axis with [bins] total bins and screen extent
    [extent] maps to raw coordinate [(i + 0.5) * (extent / bins)]", with the
    arithmetic of the interpreter. *)
Definition bin_centre (i : Z) (extent : num) (bins : Z) : result float :=
  centre ← float_add_int 0.5 i;
  cell ← true_divide extent bins;
  OK (centre * cell)%float.

(** A number that [float()] and the arithmetic accept: every [float], and
    every [int] that rounds to a finite double. *)
Definition representable (x : num) : Prop :=
  match x with
  | Int z => Z.abs z < DBL_OVERFLOW
  | Float _ => True
  end.

(** Some kind of [group] is among [types]. *)
Definition intersects (group : gset ActionTypes) (types : list ActionTypes)
    : Prop :=
  exists k, k ∈ group /\ k ∈ types.

(** The same configuration with its kinds listed differently. *)
Definition with_action_types (self : ActionSpaceConfig)
    (types : list ActionTypes) : ActionSpaceConfig :=
  {| action_types := types;
     screen_width := screen_width self;
     screen_height := screen_height self;
     coord_bins := coord_bins self;
     allowed_keys := allowed_keys self;
     text_max_len := text_max_len self;
     text_charset := text_charset self |}.

(** The same instance with another index. *)
Definition with_action_type (action : Action) (t : Z) : Action :=
  {| action_type := Some t;
     coords := coords action;
     ref := ref action;
     text := text action |}.

(** The kinds without an entry in the table. *)
Definition unwired : list ActionTypes :=
  [ SCROLL_UP; SCROLL_DOWN; PRESS_KEY; TYPE_FIELD;
    FOCUS_ELEMENT_AND_TYPE_FIELD ].

(** What the branch of a coordinate kind does, given the function that the
    table holds for the kind. *)
Definition coords_branch (action : Action) (config : ActionSpaceConfig)
    (driver : ChromeDriver) (fn : selenium_fn) : Eff unit :=
  match compute_raw_coords config action with
  | OK (left_, top) =>
      mkEff [Call fn [Arg_float left_; Arg_float top]]
            (driver (Call fn [Arg_float left_; Arg_float top]))
  | Raise e => mkEff [] (Raise e)
  end.

(** What the branches of the element and text kinds do. *)
Definition ref_branch (action : Action) (driver : ChromeDriver)
    (fn : selenium_fn) (rest : result (list argument)) : Eff unit :=
  match x ← dict_getitem "ref" (ref action); py_int x with
  | OK r =>
      match rest with
      | OK args =>
          mkEff [Call fn (Arg_int r :: args)]
                (driver (Call fn (Arg_int r :: args)))
      | Raise e => mkEff [] (Raise e)
      end
  | Raise e => mkEff [] (Raise e)
  end.

Definition text_argument (action : Action) : result (list argument) :=
  s ← dict_getitem "text" (text action); OK [Arg_str s].

(** The exceptions that [execute_action] and [compute_raw_coords] can
    raise on their own account, that is, other than what a call on the
    driver raises. *)
Definition own_error (e : exn) : Prop :=
  match e with
  | KeyError _ | IndexError | OverflowError | ZeroDivisionError
  | ValueError Screen_size_must_be_specified
  | ValueError Cannot_convert_float_NaN_to_integer => True
  | _ => False
  end.

(** Among them, the exceptions of indexing and of arithmetic. *)
Definition numeric_error (e : exn) : Prop :=
  match e with
  | IndexError | OverflowError | ZeroDivisionError
  | ValueError Cannot_convert_float_NaN_to_integer => True
  | _ => False
  end.

(** [key in action], for the keys that the record holds; the keys ["key"]
    and ["field"], which the module never reads, are not held and count
    as present. *)
Definition has_key (action : Action) (key : string) : bool :=
  if decide (key = "action_type") then bool_decide (is_Some (action_type action))
  else if decide (key = "coords") then bool_decide (is_Some (coords action))
  else if decide (key = "ref") then bool_decide (is_Some (ref action))
  else if decide (key = "text") then bool_decide (is_Some (text action))
  else true.

(** The keys that a dict returned by [get_action_space] can have. *)
Definition schema_keys : list string :=
  [ "action_type"; "coords"; "ref"; "key"; "text"; "field" ].

(** [config.screen_width = w; config.screen_height = h], the assignment
    that the docstring of the class leaves to the environment. *)
Definition with_screen_size (self : ActionSpaceConfig) (w h : num)
    : ActionSpaceConfig :=
  {| action_types := action_types self;
     screen_width := Some w;
     screen_height := Some h;
     coord_bins := coord_bins self;
     allowed_keys := allowed_keys self;
     text_max_len := text_max_len self;
     text_charset := text_charset self |}.

(** The same instance with other coordinates. *)
Definition with_coords (action : Action) (xs : list num) : Action :=
  {| action_type := action_type action;
     coords := Some xs;
     ref := ref action;
     text := text action |}.

(** The function that carries the name of a coordinate kind. *)
Definition named_after (k : ActionTypes) (fn : selenium_fn) : Prop :=
  (k = MOVE_COORDS /\ fn = execute_move_coords) \/
  (k = CLICK_COORDS /\ fn = execute_click_coords) \/
  (k = DBLCLICK_COORDS /\ fn = execute_dblclick_coords) \/
  (k = MOUSEDOWN_COORDS /\ fn = execute_mousedown_coords) \/
  (k = MOUSEUP_COORDS /\ fn = execute_mouseup_coords).

(** ** The configurations and instances of the examples *)

(** Values for the constants of [miniwob.constants], for the examples. *)
Definition example_constants : constants :=
  {| ASCII_CHARSET := Charset_str "abcdefghijklmnopqrstuvwxyz";
     DEFAULT_ALLOWED_KEYS := ["<Enter>"; "<Backspace>"];
     MAX_FIELDS := 20;
     MAX_REF := 1000000;
     TYPING_MAX_LENGTH := 64 |}.

(** Four by two bins on a screen of 800 by 600. *)
Definition binned_800_600 : ActionSpaceConfig :=
  {| action_types := [CLICK_COORDS];
     screen_width := Some (Int 800);
     screen_height := Some (Int 600);
     coord_bins := Some (4, 2);
     allowed_keys := [];
     text_max_len := 0;
     text_charset := Charset_str "ab" |}.

(** The instance [{action_type: 0, coords: [x, y]}]. *)
Definition at_coords (x y : num) : Action :=
  {| action_type := Some 0;
     coords := Some [x; y];
     ref := None;
     text := None |}.

(** A coordinate kind, no screen size, no binning. *)
Definition unbinned_no_screen : ActionSpaceConfig :=
  {| action_types := [CLICK_COORDS];
     screen_width := None;
     screen_height := None;
     coord_bins := None;
     allowed_keys := [];
     text_max_len := 0;
     text_charset := Charset_str "ab" |}.

(** A screen of width [0.0]. *)
Definition zero_width : ActionSpaceConfig :=
  {| action_types := [CLICK_COORDS];
     screen_width := Some (Float 0);
     screen_height := Some (Int 600);
     coord_bins := Some (4, 2);
     allowed_keys := [];
     text_max_len := 0;
     text_charset := Charset_str "ab" |}.

(** The preset, on a screen of 160 by 210. *)
Definition all_supported_160_210 : ActionSpaceConfig :=
  {| action_types :=
       [ NONE; CLICK_COORDS; CLICK_ELEMENT; TYPE_TEXT;
         FOCUS_ELEMENT_AND_TYPE_TEXT ];
     screen_width := Some (Int 160);
     screen_height := Some (Int 210);
     coord_bins := None;
     allowed_keys := DEFAULT_ALLOWED_KEYS example_constants;
     text_max_len := TYPING_MAX_LENGTH example_constants;
     text_charset := ASCII_CHARSET example_constants |}.

(** The dict of the action space of that configuration. *)
Definition all_supported_160_210_space : gmap string spaces.Space :=
  <["text" := spaces.Text (TYPING_MAX_LENGTH example_constants)
                (ASCII_CHARSET example_constants)]>
    (<["ref" := spaces.Discrete (MAX_REF example_constants)]>
       (<["coords" :=
            spaces.Box (np_array [Float 0; Float 0] (Some np_float32))
              (np_array [Int 160; Int 210] (Some np_float32))]>
          (<["action_type" := spaces.Discrete 5]> ∅))).

(** An instance with all of its fields. *)
Definition full_instance (t : Z) : Action :=
  {| action_type := Some t;
     coords := Some [Float 2.5; Float 7.75];
     ref := Some (Int 5);
     text := Some "hi" |}.

(** The configuration of the end-to-end example. *)
Definition none_or_click : ActionSpaceConfig :=
  {| action_types := [NONE; CLICK_COORDS];
     screen_width := Some (Int 300);
     screen_height := Some (Int 200);
     coord_bins := None;
     allowed_keys := [];
     text_max_len := 0;
     text_charset := Charset_str "ab" |}.

(** The driver of a browser that is gone: every call on it raises. *)
Definition closed_browser : ChromeDriver :=
  fun _ => Raise (WebDriverException "no such window").

(** ** Basic facts *)

Lemma result_bind_OK {A B : Type} (a : A) (f : A -> result B) :
  OK a ≫= f = f a.
Proof. reflexivity. Qed.

Lemma result_bind_Raise {A B : Type} (e : exn) (f : A -> result B) :
  Raise e ≫= f = Raise e.
Proof. reflexivity. Qed.

Lemma DBL_OVERFLOW_pos : 0 < DBL_OVERFLOW.
Proof. reflexivity. Qed.

Lemma float_of_int_representable (z : Z) :
  Z.abs z < DBL_OVERFLOW -> float_of_int z = OK (nearest_double z).
Proof.
  intros Hz. unfold float_of_int.
  by rewrite (proj2 (Z.ltb_lt _ _) Hz).
Qed.

Lemma int_true_divide_returns (a b : Z) :
  Z.abs a < DBL_OVERFLOW -> b <> 0 -> exists d, int_true_divide a b = OK d.
Proof.
  intros Ha Hb. unfold int_true_divide.
  rewrite (proj2 (Z.eqb_neq _ _) Hb).
  pose proof DBL_OVERFLOW_pos as Hpos.
  assert ((DBL_OVERFLOW * Z.abs b <=? Z.abs a) = false) as ->.
  { apply Z.leb_gt. nia. }
  eauto.
Qed.

Lemma true_divide_returns (x : num) (b : Z) :
  representable x -> b <> 0 -> Z.abs b < DBL_OVERFLOW ->
  exists d, true_divide x b = OK d.
Proof.
  intros Hx Hb Hlt. destruct x as [a|f]; simpl.
  - by apply int_true_divide_returns.
  - rewrite (float_of_int_representable _ Hlt), result_bind_OK.
    rewrite (proj2 (Z.eqb_neq _ _) Hb). eauto.
Qed.

Lemma py_not_Some_true (x : num) : py_bool x = true -> py_not (Some x) = false.
Proof. intros H. simpl. by rewrite H. Qed.

Lemma list_getitem_0 {A : Type} (x : A) (l : list A) :
  list_getitem (x :: l) 0 = OK x.
Proof.
  unfold list_getitem. cbn [length]. rewrite Nat2Z.inj_succ.
  replace (0 <? 0) with false by reflexivity. cbn [orb].
  assert ((Z.succ (Z.of_nat (length l)) <=? 0) = false) as ->.
  { apply Z.leb_gt. lia. }
  reflexivity.
Qed.

Lemma list_getitem_1 {A : Type} (x y : A) (l : list A) :
  list_getitem (x :: y :: l) 1 = OK y.
Proof.
  unfold list_getitem. cbn [length]. rewrite !Nat2Z.inj_succ.
  replace (1 <? 0) with false by reflexivity.
  replace (1 <? 0) with false by reflexivity. cbn [orb].
  assert ((Z.succ (Z.succ (Z.of_nat (length l))) <=? 1) = false) as ->.
  { apply Z.leb_gt. lia. }
  reflexivity.
Qed.

(** Runs a computation in [result] as far as its steps are known to
    return. *)
Ltac run_result :=
  repeat first
    [ rewrite result_bind_OK
    | rewrite result_bind_Raise
    | rewrite list_getitem_0
    | rewrite list_getitem_1
    | rewrite float_of_int_representable by assumption
    | progress cbn [dict_getitem py_int orb] ].

(** ** Raw coordinates *)

(** C1. [compute_raw_coords] on both branches. With [coord_bins] set, both
    screen dimensions set (and true, as the guard of the function wants
    them), bin counts other than zero and integers that a double can hold,
    the bin indices [(i, j)] give
    [((0.5 + i) * (screen_width / coord_bins[0]),
      (0.5 + j) * (screen_height / coord_bins[1]))]; with bins [(4, 2)] on
    an 800 by 600 screen, bin [(0, 0)] gives [(100.0, 150.0)] and bin
    [(3, 1)] gives [(700.0, 450.0)]. Without [coord_bins], numeric coords
    [[x, y]] give [(float(x), float(y))]. *)
Theorem compute_raw_coords_correct :
  (forall (self : ActionSpaceConfig) (action : Action)
          (bx by_ i j : Z) (w h : num) (rest : list num),
     coord_bins self = Some (bx, by_) ->
     screen_width self = Some w -> py_bool w = true -> representable w ->
     screen_height self = Some h -> py_bool h = true -> representable h ->
     bx <> 0 -> Z.abs bx < DBL_OVERFLOW ->
     by_ <> 0 -> Z.abs by_ < DBL_OVERFLOW ->
     coords action = Some (Int i :: Int j :: rest) ->
     Z.abs i < DBL_OVERFLOW -> Z.abs j < DBL_OVERFLOW ->
     exists cell_w cell_h : float,
       true_divide w bx = OK cell_w /\
       true_divide h by_ = OK cell_h /\
       bin_centre i w bx = OK ((0.5 + nearest_double i) * cell_w)%float /\
       bin_centre j h by_ = OK ((0.5 + nearest_double j) * cell_h)%float /\
       compute_raw_coords self action
       = OK ((0.5 + nearest_double i) * cell_w,
             (0.5 + nearest_double j) * cell_h)%float)
  /\ compute_raw_coords binned_800_600 (at_coords (Int 0) (Int 0))
     = OK (100, 150)%float
  /\ compute_raw_coords binned_800_600 (at_coords (Int 3) (Int 1))
     = OK (700, 450)%float
  /\ (forall (self : ActionSpaceConfig) (action : Action)
             (x y : num) (rest : list num),
        coord_bins self = None ->
        coords action = Some (x :: y :: rest) ->
        representable x -> representable y ->
        exists fx fy : float,
          py_float x = OK fx /\ py_float y = OK fy /\
          compute_raw_coords self action = OK (fx, fy)).
Proof.
  split; [|split; [|split]].
  - intros self action bx by_ i j w h rest Hbins Hw Hwt Hwr Hh Hht Hhr
      Hbx Hbxr Hby Hbyr Hc Hi Hj.
    destruct (true_divide_returns w bx Hwr Hbx Hbxr) as [cell_w Hcw].
    destruct (true_divide_returns h by_ Hhr Hby Hbyr) as [cell_h Hch].
    exists cell_w, cell_h. repeat split; try assumption.
    + unfold bin_centre, float_add_int. by run_result; rewrite Hcw.
    + unfold bin_centre, float_add_int. by run_result; rewrite Hch.
    + unfold compute_raw_coords. rewrite Hbins, Hw, Hh.
      rewrite (py_not_Some_true _ Hwt), (py_not_Some_true _ Hht), Hc.
      unfold float_add_int. by run_result; rewrite Hcw; run_result; rewrite Hch.
  - vm_compute. reflexivity.
  - vm_compute. reflexivity.
  - intros self action x y rest Hbins Hc Hx Hy.
    assert (forall n, representable n -> exists f, py_float n = OK f) as Hfl.
    { intros [z|f] Hn; simpl; [|eauto].
      rewrite (float_of_int_representable _ Hn). eauto. }
    destruct (Hfl x Hx) as [fx Hfx], (Hfl y Hy) as [fy Hfy].
    exists fx, fy. repeat split; try assumption.
    unfold compute_raw_coords. rewrite Hbins, Hc.
    by run_result; rewrite Hfx; run_result; rewrite Hfy.
Qed.

Lemma compute_raw_coords_correct_witness :
  exists cell_w cell_h : float,
    true_divide (Float 800) 4 = OK cell_w /\
    true_divide (Float 600) 2 = OK cell_h /\
    bin_centre 3 (Float 800) 4 = OK ((0.5 + nearest_double 3) * cell_w)%float /\
    bin_centre 1 (Float 600) 2 = OK ((0.5 + nearest_double 1) * cell_h)%float /\
    compute_raw_coords
      {| action_types := [CLICK_COORDS];
         screen_width := Some (Float 800);
         screen_height := Some (Float 600);
         coord_bins := Some (4, 2);
         allowed_keys := [];
         text_max_len := 0;
         text_charset := Charset_str "ab" |}
      (at_coords (Int 3) (Int 1))
    = OK ((0.5 + nearest_double 3) * cell_w,
          (0.5 + nearest_double 1) * cell_h)%float.
Proof.
  apply (proj1 compute_raw_coords_correct) with (rest := []);
    try reflexivity; try exact I; lia.
Defined.

(** ** Screen geometry *)

Lemma set_bool_intersection (group : gset ActionTypes)
    (types : list ActionTypes) :
  set_bool (intersection group types) = true <-> intersects group types.
Proof.
  unfold set_bool, intersection, intersects.
  rewrite bool_decide_eq_true. split.
  - intros Hne. apply set_choose_L in Hne as [k Hk].
    exists k. set_solver.
  - intros (k & Hg & Ht). set_solver.
Qed.

Lemma set_bool_intersection_false (group : gset ActionTypes)
    (types : list ActionTypes) :
  set_bool (intersection group types) = false <-> ~ intersects group types.
Proof.
  rewrite <- set_bool_intersection. by destruct (set_bool _).
Qed.

Lemma get_action_space_falsy_geometry (K : constants)
    (self : ActionSpaceConfig) :
  intersects COORDS_ACTIONS (action_types self) ->
  py_not (screen_width self) || py_not (screen_height self) = true ->
  get_action_space K self = Raise (ValueError Screen_size_must_be_specified).
Proof.
  intros Hi Hf. unfold get_action_space.
  rewrite (proj2 (set_bool_intersection _ _) Hi), Hf. reflexivity.
Qed.

Lemma compute_raw_coords_falsy_geometry (self : ActionSpaceConfig)
    (action : Action) :
  is_Some (coord_bins self) ->
  py_not (screen_width self) || py_not (screen_height self) = true ->
  compute_raw_coords self action
  = Raise (ValueError Screen_size_must_be_specified).
Proof.
  intros [[bx by_] Hb] Hf. unfold compute_raw_coords.
  by rewrite Hb, Hf.
Qed.

(** Without [coord_bins] the function never looks at the screen size. *)
Lemma compute_raw_coords_unbinned_no_geometry (self : ActionSpaceConfig)
    (action : Action) :
  coord_bins self = None ->
  compute_raw_coords self action
  <> Raise (ValueError Screen_size_must_be_specified).
Proof.
  intros Hb Hraise. unfold compute_raw_coords in Hraise. rewrite Hb in Hraise.
  unfold mbind, result_bind, dict_getitem, list_getitem, py_float,
    float_of_int in Hraise.
  repeat case_match; congruence.
Qed.

(** C4, as stated, fails: a configuration with a coordinate kind, no screen
    size and no [coord_bins] computes raw coordinates without complaint. *)
Lemma missing_geometry_as_stated_fails :
  ~ (forall (K : constants) (self : ActionSpaceConfig) (action : Action),
       intersects COORDS_ACTIONS (action_types self) ->
       screen_width self = None \/ screen_height self = None ->
       get_action_space K self
       = Raise (ValueError Screen_size_must_be_specified) /\
       compute_raw_coords self action
       = Raise (ValueError Screen_size_must_be_specified)).
Proof.
  intros H.
  destruct (H example_constants unbinned_no_screen
              (at_coords (Int 10) (Int 20))) as [_ Hraise].
  - apply set_bool_intersection. reflexivity.
  - by left.
  - assert (compute_raw_coords unbinned_no_screen
              (at_coords (Int 10) (Int 20))
            = OK (10, 20)%float) as Hrun by (vm_compute; reflexivity).
    rewrite Hrun in Hraise. discriminate Hraise.
Qed.

(** C4, amended. When [action_types] has a coordinate kind and a screen
    dimension is unset, [get_action_space] raises the [ValueError] for the
    missing screen size, and so does [compute_raw_coords] whenever
    [coord_bins] is set; without [coord_bins], [compute_raw_coords] never
    raises it. *)
Theorem missing_geometry_raises (K : constants) (self : ActionSpaceConfig) :
  intersects COORDS_ACTIONS (action_types self) ->
  screen_width self = None \/ screen_height self = None ->
  ConfigurationError (ValueError Screen_size_must_be_specified) /\
  get_action_space K self = Raise (ValueError Screen_size_must_be_specified) /\
  (forall action : Action,
     is_Some (coord_bins self) ->
     compute_raw_coords self action
     = Raise (ValueError Screen_size_must_be_specified)) /\
  (forall action : Action,
     coord_bins self = None ->
     compute_raw_coords self action
     <> Raise (ValueError Screen_size_must_be_specified)).
Proof.
  intros Hi Hunset.
  assert (py_not (screen_width self) || py_not (screen_height self) = true)
    as Hf.
  { destruct Hunset as [-> | ->]; [done|]. apply orb_true_r. }
  split; [by left|]. split; [|split].
  - by apply get_action_space_falsy_geometry.
  - intros action Hb. by apply compute_raw_coords_falsy_geometry.
  - intros action Hb. by apply compute_raw_coords_unbinned_no_geometry.
Qed.

Lemma missing_geometry_raises_witness :
  ConfigurationError (ValueError Screen_size_must_be_specified) /\
  get_action_space example_constants
    {| action_types := [NONE; CLICK_COORDS];
       screen_width := Some (Int 300);
       screen_height := None;
       coord_bins := Some (4, 2);
       allowed_keys := [];
       text_max_len := 0;
       text_charset := Charset_str "ab" |}
  = Raise (ValueError Screen_size_must_be_specified) /\
  (forall action : Action,
     is_Some (Some (4, 2)) ->
     compute_raw_coords
       {| action_types := [NONE; CLICK_COORDS];
          screen_width := Some (Int 300);
          screen_height := None;
          coord_bins := Some (4, 2);
          allowed_keys := [];
          text_max_len := 0;
          text_charset := Charset_str "ab" |} action
     = Raise (ValueError Screen_size_must_be_specified)) /\
  (forall action : Action,
     Some (4, 2) = None ->
     compute_raw_coords
       {| action_types := [NONE; CLICK_COORDS];
          screen_width := Some (Int 300);
          screen_height := None;
          coord_bins := Some (4, 2);
          allowed_keys := [];
          text_max_len := 0;
          text_charset := Charset_str "ab" |} action
     <> Raise (ValueError Screen_size_must_be_specified)).
Proof.
  apply (missing_geometry_raises example_constants
           {| action_types := [NONE; CLICK_COORDS];
              screen_width := Some (Int 300);
              screen_height := None;
              coord_bins := Some (4, 2);
              allowed_keys := [];
              text_max_len := 0;
              text_charset := Charset_str "ab" |}).
  - apply set_bool_intersection. reflexivity.
  - right. reflexivity.
Defined.

(** C10. A screen dimension of [0] or [0.0] counts as unset: whenever
    [screen_width] or [screen_height] is false (absent or zero),
    [get_action_space] with a coordinate kind configured and
    [compute_raw_coords] with [coord_bins] set raise the [ValueError] for
    the missing screen size. *)
Theorem zero_geometry_is_unset :
  py_not (Some (Int 0)) = true /\
  py_not (Some (Float 0)) = true /\
  forall (K : constants) (self : ActionSpaceConfig),
    py_not (screen_width self) = true \/ py_not (screen_height self) = true ->
    (intersects COORDS_ACTIONS (action_types self) ->
     get_action_space K self
     = Raise (ValueError Screen_size_must_be_specified)) /\
    (forall action : Action,
       is_Some (coord_bins self) ->
       compute_raw_coords self action
       = Raise (ValueError Screen_size_must_be_specified)).
Proof.
  split; [reflexivity|]. split; [reflexivity|].
  intros K self Hfalse.
  assert (py_not (screen_width self) || py_not (screen_height self) = true)
    as Hf by (apply orb_true_iff; exact Hfalse).
  split.
  - intros Hi. by apply get_action_space_falsy_geometry.
  - intros action Hb. by apply compute_raw_coords_falsy_geometry.
Qed.

Lemma zero_geometry_is_unset_witness :
  (intersects COORDS_ACTIONS (action_types zero_width) ->
   get_action_space example_constants zero_width
   = Raise (ValueError Screen_size_must_be_specified)) /\
  (forall action : Action,
     is_Some (coord_bins zero_width) ->
     compute_raw_coords zero_width action
     = Raise (ValueError Screen_size_must_be_specified)).
Proof.
  apply (proj2 (proj2 zero_geometry_is_unset) example_constants zero_width).
  left. reflexivity.
Defined.

(** ** Presets *)

(** C6. The preset ["all_supported"] has exactly the five kinds [NONE],
    [CLICK_COORDS], [CLICK_ELEMENT], [TYPE_TEXT],
    [FOCUS_ELEMENT_AND_TYPE_TEXT], in this order; every other name raises
    the [ValueError] for an unknown preset. *)
Theorem get_preset_correct (K : constants) :
  (exists config : ActionSpaceConfig,
     get_preset K "all_supported" = OK config /\
     action_types config
     = [ NONE; CLICK_COORDS; CLICK_ELEMENT; TYPE_TEXT;
         FOCUS_ELEMENT_AND_TYPE_TEXT ]) /\
  (forall name : string,
     name <> "all_supported" ->
     get_preset K name = Raise (ValueError (Unknown_preset_name name)) /\
     ConfigurationError (ValueError (Unknown_preset_name name))).
Proof.
  split.
  - eexists. split; reflexivity.
  - intros name Hne. unfold get_preset.
    destruct (decide (name = "all_supported")) as [Heq|_]; [done|].
    split; [reflexivity|]. right. by exists name.
Qed.

Lemma get_preset_correct_witness :
  get_preset example_constants "nonexistent"
  = Raise (ValueError (Unknown_preset_name "nonexistent")) /\
  ConfigurationError (ValueError (Unknown_preset_name "nonexistent")).
Proof.
  apply (proj2 (get_preset_correct example_constants) "nonexistent").
  discriminate.
Defined.

(** ** The action space *)

Lemma intersection_Permutation (group : gset ActionTypes)
    (types types' : list ActionTypes) :
  types ≡ₚ types' -> intersection group types = intersection group types'.
Proof. intros Hp. unfold intersection. by rewrite Hp. Qed.

Lemma get_action_space_Permutation (K : constants)
    (self : ActionSpaceConfig) (types : list ActionTypes) :
  types ≡ₚ action_types self ->
  get_action_space K (with_action_types self types) = get_action_space K self.
Proof.
  intros Hp. unfold get_action_space, with_action_types.
  cbn [action_types screen_width screen_height coord_bins allowed_keys
       text_max_len text_charset].
  rewrite !(intersection_Permutation _ _ _ Hp), (Permutation_length Hp).
  rewrite (bool_decide_ext (PRESS_KEY ∈ types)
             (PRESS_KEY ∈ action_types self)) by (by rewrite Hp).
  reflexivity.
Qed.

(** Reads the keys of the dict built by [get_action_space]. *)
Ltac read_fields :=
  repeat first
    [ rewrite lookup_insert_eq
    | rewrite lookup_insert_ne by discriminate
    | rewrite lookup_empty ].

Ltac settle_field :=
  first
    [ reflexivity
    | split; [ intros _; assumption | intros _; eexists; reflexivity ]
    | split; [ intros [? ?]; discriminate | intros ?; contradiction ] ].

(** C3. Provided the screen size is set when a coordinate kind is
    configured, [get_action_space] returns a dict that has the key
    ["coords"] exactly when [action_types] meets the coordinate group,
    ["ref"] exactly when it meets the element group, ["text"] the text
    group, ["field"] the field group, ["key"] exactly when [PRESS_KEY] is
    among [action_types], and always ["action_type"], a [Discrete] over
    [len(action_types)] values; listing the kinds in another order gives
    the same dict. *)
Theorem get_action_space_fields (K : constants) (self : ActionSpaceConfig) :
  (intersects COORDS_ACTIONS (action_types self) ->
   py_not (screen_width self) = false /\ py_not (screen_height self) = false) ->
  (exists space : gmap string spaces.Space,
     get_action_space K self = OK (spaces.Dict space) /\
     (is_Some (space !! "coords")
      <-> intersects COORDS_ACTIONS (action_types self)) /\
     (is_Some (space !! "ref")
      <-> intersects ELEMENT_ACTIONS (action_types self)) /\
     (is_Some (space !! "text")
      <-> intersects TEXT_ACTIONS (action_types self)) /\
     (is_Some (space !! "field")
      <-> intersects FIELD_ACTIONS (action_types self)) /\
     (is_Some (space !! "key") <-> PRESS_KEY ∈ action_types self) /\
     space !! "action_type"
     = Some (spaces.Discrete (Z.of_nat (length (action_types self))))) /\
  (forall types : list ActionTypes,
     types ≡ₚ action_types self ->
     get_action_space K (with_action_types self types)
     = get_action_space K self).
Proof.
  intros Hgeom. split; [|by apply get_action_space_Permutation].
  unfold get_action_space.
  destruct (set_bool (intersection COORDS_ACTIONS _)) eqn:Hc;
    [ apply set_bool_intersection in Hc;
      destruct (Hgeom Hc) as [Hw Hh]; rewrite Hw, Hh; cbn [orb];
      (destruct (screen_width self) as [w|]; [|discriminate Hw]);
      (destruct (screen_height self) as [h|]; [|discriminate Hh])
    | apply set_bool_intersection_false in Hc ].
  all: destruct (set_bool (intersection ELEMENT_ACTIONS _)) eqn:He;
    [apply set_bool_intersection in He
    |apply set_bool_intersection_false in He].
  all: destruct (set_bool (intersection TEXT_ACTIONS _)) eqn:Ht;
    [apply set_bool_intersection in Ht
    |apply set_bool_intersection_false in Ht].
  all: destruct (set_bool (intersection FIELD_ACTIONS _)) eqn:Hf;
    [apply set_bool_intersection in Hf
    |apply set_bool_intersection_false in Hf].
  all: destruct (bool_decide (PRESS_KEY ∈ action_types self)) eqn:Hk;
    [apply bool_decide_eq_true in Hk | apply bool_decide_eq_false in Hk].
  all: try destruct (coord_bins self) as [[bx by_]|].
  all: rewrite ?result_bind_OK; eexists; (split; [reflexivity|]).
  all: repeat match goal with |- _ /\ _ => split end; read_fields; settle_field.
Qed.

Lemma get_action_space_fields_witness :
  (exists space : gmap string spaces.Space,
     get_action_space example_constants all_supported_160_210
     = OK (spaces.Dict space) /\
     (is_Some (space !! "coords")
      <-> intersects COORDS_ACTIONS (action_types all_supported_160_210)) /\
     (is_Some (space !! "ref")
      <-> intersects ELEMENT_ACTIONS (action_types all_supported_160_210)) /\
     (is_Some (space !! "text")
      <-> intersects TEXT_ACTIONS (action_types all_supported_160_210)) /\
     (is_Some (space !! "field")
      <-> intersects FIELD_ACTIONS (action_types all_supported_160_210)) /\
     (is_Some (space !! "key")
      <-> PRESS_KEY ∈ action_types all_supported_160_210) /\
     space !! "action_type" = Some (spaces.Discrete 5)) /\
  (forall types : list ActionTypes,
     types ≡ₚ action_types all_supported_160_210 ->
     get_action_space example_constants
       (with_action_types all_supported_160_210 types)
     = get_action_space example_constants all_supported_160_210).
Proof.
  apply (get_action_space_fields example_constants all_supported_160_210).
  intros _. split; reflexivity.
Defined.

(** ** Indexing *)

Lemma list_getitem_out_of_range {A : Type} (l : list A) (t : Z) :
  t < - Z.of_nat (length l) \/ Z.of_nat (length l) <= t ->
  list_getitem l t = Raise IndexError.
Proof.
  intros Ht. unfold list_getitem.
  destruct (t <? 0) eqn:Hneg;
    [apply Z.ltb_lt in Hneg | apply Z.ltb_ge in Hneg].
  - assert ((t + Z.of_nat (length l) <? 0) = true) as ->; [|done].
    apply Z.ltb_lt. lia.
  - assert ((Z.of_nat (length l) <=? t) = true) as ->.
    { apply Z.leb_le. lia. }
    by rewrite orb_true_r.
Qed.

Lemma list_getitem_in_range {A : Type} (l : list A) (t : Z) :
  0 <= t < Z.of_nat (length l) ->
  exists x, l !! Z.to_nat t = Some x /\ list_getitem l t = OK x.
Proof.
  intros Ht. unfold list_getitem.
  assert ((t <? 0) = false) as Hneg by (apply Z.ltb_ge; lia).
  assert ((Z.of_nat (length l) <=? t) = false) as Hlt
    by (apply Z.leb_gt; lia).
  rewrite !Hneg, Hlt. cbn [orb].
  destruct (lookup_lt_is_Some_2 l (Z.to_nat t)) as [x Hx]; [lia|].
  exists x. rewrite Hx. split; reflexivity.
Qed.

Lemma list_getitem_negative {A : Type} (l : list A) (t : Z) :
  - Z.of_nat (length l) <= t <= -1 ->
  list_getitem l t = list_getitem l (Z.of_nat (length l) + t).
Proof.
  intros Ht. unfold list_getitem.
  assert ((t <? 0) = true) as -> by (apply Z.ltb_lt; lia).
  assert ((Z.of_nat (length l) + t <? 0) = false) as Hpos
    by (apply Z.ltb_ge; lia).
  rewrite (Z.add_comm t), !Hpos. reflexivity.
Qed.

(** ** The dispatcher, kind by kind *)

Lemma Eff_bind_pure_OK {A B : Type} (a : A) (f : A -> Eff B) :
  pure (OK a) ≫= f = f a.
Proof. unfold pure, mbind, Eff_bind. cbn. by destruct (f a). Qed.

Lemma Eff_bind_pure_Raise {A B : Type} (e : exn) (f : A -> Eff B) :
  pure (Raise e) ≫= f = mkEff [] (Raise e).
Proof. reflexivity. Qed.

Lemma table_getitem_cases (k : ActionTypes) :
  table_getitem k =
  match k with
  | NONE => OK None
  | MOVE_COORDS => OK (Some execute_move_coords)
  | CLICK_COORDS => OK (Some execute_click_coords)
  | DBLCLICK_COORDS => OK (Some execute_dblclick_coords)
  | MOUSEDOWN_COORDS => OK (Some execute_mousedown_coords)
  | MOUSEUP_COORDS => OK (Some execute_mouseup_coords)
  | CLICK_ELEMENT => OK (Some execute_click_element)
  | TYPE_TEXT => OK (Some execute_type_text)
  | FOCUS_ELEMENT_AND_TYPE_TEXT =>
      OK (Some execute_focus_element_and_type_text)
  | SCROLL_UP | SCROLL_DOWN | PRESS_KEY | TYPE_FIELD
  | FOCUS_ELEMENT_AND_TYPE_FIELD => Raise (KeyError (Key_ActionTypes k))
  end.
Proof. by destruct k. Qed.

Lemma execute_action_unresolved (action : Action)
    (config : ActionSpaceConfig) (driver : ChromeDriver) (e : exn) :
  resolve_action_type action config = Raise e ->
  execute_action action config driver = mkEff [] (Raise e).
Proof. intros Hr. unfold execute_action. by rewrite Hr. Qed.

Lemma execute_action_unwired (action : Action)
    (config : ActionSpaceConfig) (driver : ChromeDriver) (k : ActionTypes) :
  resolve_action_type action config = OK k ->
  k ∈ unwired ->
  execute_action action config driver
  = mkEff [] (Raise (KeyError (Key_ActionTypes k))).
Proof.
  intros Hr Hk. unfold execute_action.
  rewrite Hr, Eff_bind_pure_OK, table_getitem_cases.
  unfold unwired in Hk. rewrite !elem_of_cons, elem_of_nil in Hk.
  destruct Hk as [->|[->|[->|[->|[->|[]]]]]]; reflexivity.
Qed.

Lemma execute_action_NONE (action : Action)
    (config : ActionSpaceConfig) (driver : ChromeDriver) :
  resolve_action_type action config = OK NONE ->
  execute_action action config driver = mkEff [] (OK tt).
Proof.
  intros Hr. unfold execute_action.
  by rewrite Hr, Eff_bind_pure_OK, table_getitem_cases, Eff_bind_pure_OK.
Qed.

Lemma execute_action_wired (action : Action)
    (config : ActionSpaceConfig) (driver : ChromeDriver) (k : ActionTypes) :
  resolve_action_type action config = OK k ->
  execute_action action config driver =
  match k with
  | NONE => mkEff [] (OK tt)
  | MOVE_COORDS => coords_branch action config driver execute_move_coords
  | CLICK_COORDS => coords_branch action config driver execute_click_coords
  | DBLCLICK_COORDS =>
      coords_branch action config driver execute_dblclick_coords
  | MOUSEDOWN_COORDS =>
      coords_branch action config driver execute_mousedown_coords
  | MOUSEUP_COORDS =>
      coords_branch action config driver execute_mouseup_coords
  | CLICK_ELEMENT => ref_branch action driver execute_click_element (OK [])
  | TYPE_TEXT =>
      match dict_getitem "text" (text action) with
      | OK s =>
          mkEff [Call execute_type_text [Arg_str s]]
                (driver (Call execute_type_text [Arg_str s]))
      | Raise e => mkEff [] (Raise e)
      end
  | FOCUS_ELEMENT_AND_TYPE_TEXT =>
      ref_branch action driver execute_focus_element_and_type_text
        (text_argument action)
  | SCROLL_UP | SCROLL_DOWN | PRESS_KEY | TYPE_FIELD
  | FOCUS_ELEMENT_AND_TYPE_FIELD =>
      mkEff [] (Raise (KeyError (Key_ActionTypes k)))
  end.
Proof.
  intros Hr. unfold execute_action.
  rewrite Hr, Eff_bind_pure_OK, table_getitem_cases.
  destruct k; try reflexivity; rewrite Eff_bind_pure_OK.
  all: repeat (rewrite decide_False by discriminate).
  all: try (rewrite decide_True by set_solver).
  all: try (rewrite decide_False by set_solver).
  all: try (rewrite decide_True by reflexivity).
  all: unfold coords_branch, ref_branch, text_argument.
  all: try (destruct (compute_raw_coords config action) as [[l t]|e];
            reflexivity).
  all: try (destruct (ref action) as [[z|f]|]; cbn [dict_getitem py_int];
            rewrite ?result_bind_OK, ?result_bind_Raise;
            try destruct (int_of_float f)).
  all: try (destruct (text action) as [s|]); reflexivity.
Qed.

(** One invocation ends in one of two ways: without a call, having raised
    or having resolved [NONE]; or with exactly one call, whose outcome is
    the outcome of the invocation. *)
Lemma execute_action_shape (action : Action) (config : ActionSpaceConfig)
    (driver : ChromeDriver) :
  (calls (execute_action action config driver) = [] /\
   ((exists e, outcome (execute_action action config driver) = Raise e) \/
    (resolve_action_type action config = OK NONE /\
     outcome (execute_action action config driver) = OK tt)))
  \/ (exists (k : ActionTypes) (c : selenium_call),
        resolve_action_type action config = OK k /\ k <> NONE /\
        calls (execute_action action config driver) = [c] /\
        outcome (execute_action action config driver) = driver c).
Proof.
  destruct (resolve_action_type action config) as [k|e] eqn:Hr.
  2:{ left. rewrite (execute_action_unresolved _ _ _ _ Hr). eauto. }
  rewrite (execute_action_wired _ _ _ _ Hr).
  destruct k; unfold coords_branch, ref_branch, text_argument;
    repeat case_match; cbn [calls outcome];
    first [ left; split; [reflexivity|]; first [ left; eexists; reflexivity
                                                | right; split; reflexivity ]
          | right; do 2 eexists; repeat split; discriminate ].
Qed.

(** ** Dispatch *)

(** C5. With [action_types = [NONE, CLICK_COORDS]] on a 300 by 200 screen
    without binning, the instance [{action_type: 1, coords: [10, 20]}]
    makes exactly one call, [execute_click_coords(10.0, 20.0, driver)],
    and the instance [{action_type: 0}] makes none. *)
Theorem end_to_end_click_coords (driver : ChromeDriver) :
  execute_action
    {| action_type := Some 1; coords := Some [Int 10; Int 20];
       ref := None; text := None |}
    none_or_click driver
  = mkEff [Call execute_click_coords [Arg_float 10; Arg_float 20]]
          (driver (Call execute_click_coords [Arg_float 10; Arg_float 20]))
  /\ execute_action
       {| action_type := Some 0; coords := None; ref := None; text := None |}
       none_or_click driver
     = mkEff [] (OK tt).
Proof.
  split.
  - by rewrite (execute_action_wired _ _ _ CLICK_COORDS).
  - by rewrite (execute_action_wired _ _ _ NONE).
Qed.

(** C2, as the code has it. A kind without an entry in the table never
    reaches the last branch of [execute_action]: the lookup in the table
    raises [KeyError] first, which is not the [ValueError] for an
    unsupported action type; no call is made. *)
Theorem unwired_kind_raises_KeyError (action : Action)
    (config : ActionSpaceConfig) (driver : ChromeDriver) (k : ActionTypes) :
  resolve_action_type action config = OK k ->
  k ∈ unwired ->
  execute_action action config driver
  = mkEff [] (Raise (KeyError (Key_ActionTypes k))) /\
  ~ UnsupportedActionError k (KeyError (Key_ActionTypes k)).
Proof.
  intros Hr Hk. split; [by apply execute_action_unwired|].
  unfold UnsupportedActionError. discriminate.
Qed.

Lemma unwired_kind_raises_KeyError_witness :
  execute_action
    {| action_type := Some 0; coords := None; ref := None; text := None |}
    {| action_types := [SCROLL_UP];
       screen_width := None;
       screen_height := None;
       coord_bins := None;
       allowed_keys := [];
       text_max_len := 0;
       text_charset := Charset_str "ab" |}
    (fun _ => OK tt)
  = mkEff [] (Raise (KeyError (Key_ActionTypes SCROLL_UP))) /\
  ~ UnsupportedActionError SCROLL_UP (KeyError (Key_ActionTypes SCROLL_UP)).
Proof.
  apply unwired_kind_raises_KeyError.
  - reflexivity.
  - unfold unwired. constructor.
Defined.

(** C7, as stated, fails: when the driver raises, the invocation raises,
    and the call has been made. *)
Lemma no_call_whenever_raising_fails :
  ~ (forall (action : Action) (config : ActionSpaceConfig)
            (driver : ChromeDriver) (e : exn),
       outcome (execute_action action config driver) = Raise e ->
       calls (execute_action action config driver) = []).
Proof.
  intros H.
  specialize (H {| action_type := Some 0; coords := None;
                   ref := Some (Int 5); text := None |}
                {| action_types := [CLICK_ELEMENT];
                   screen_width := None;
                   screen_height := None;
                   coord_bins := None;
                   allowed_keys := [];
                   text_max_len := 0;
                   text_charset := Charset_str "ab" |}
                closed_browser (WebDriverException "no such window")).
  rewrite (execute_action_wired _ _ _ CLICK_ELEMENT) in H by reflexivity.
  discriminate H. reflexivity.
Qed.

(** C7, amended. One invocation of [execute_action] makes at most one call
    on the driver: none when the kind is [NONE], none when the invocation
    raises before it reaches the driver, and exactly one when a kind other
    than [NONE] is dispatched. An invocation that raises has made no call,
    or one call that raised the same exception; if the driver never raises,
    it has made none. [FOCUS_ELEMENT_AND_TYPE_TEXT] with [ref = 5] and
    [text = "hi"] is the single call
    [execute_focus_element_and_type_text(5, "hi", driver)]. *)
Theorem execute_action_at_most_one_call (action : Action)
    (config : ActionSpaceConfig) (driver : ChromeDriver) :
  (length (calls (execute_action action config driver)) <= 1)%nat /\
  (resolve_action_type action config = OK NONE ->
   execute_action action config driver = mkEff [] (OK tt)) /\
  (forall k : ActionTypes,
     resolve_action_type action config = OK k -> k <> NONE ->
     outcome (execute_action action config driver) = OK tt ->
     exists c, calls (execute_action action config driver) = [c] /\
               driver c = OK tt) /\
  (forall e : exn,
     outcome (execute_action action config driver) = Raise e ->
     calls (execute_action action config driver) = [] \/
     exists c, calls (execute_action action config driver) = [c] /\
               driver c = Raise e) /\
  (forall e : exn,
     (forall c, driver c = OK tt) ->
     outcome (execute_action action config driver) = Raise e ->
     calls (execute_action action config driver) = []) /\
  (forall (idx : Z) (xy : option (list num)),
     list_getitem (action_types config) idx = OK FOCUS_ELEMENT_AND_TYPE_TEXT ->
     calls (execute_action
              {| action_type := Some idx; coords := xy;
                 ref := Some (Int 5); text := Some "hi" |} config driver)
     = [Call execute_focus_element_and_type_text [Arg_int 5; Arg_str "hi"]]).
Proof.
  pose proof (execute_action_shape action config driver) as Hshape.
  repeat match goal with |- _ /\ _ => split end.
  - destruct Hshape as [[-> _]|(k & c & _ & _ & -> & _)]; simpl; lia.
  - by apply execute_action_NONE.
  - intros k Hk Hne Hok.
    destruct Hshape as [[_ [[e He]|[Hnone _]]]|(k' & c & _ & _ & Hc & Ho)].
    + congruence.
    + congruence.
    + exists c. split; [done|congruence].
  - intros e He.
    destruct Hshape as [[Hc _]|(k & c & _ & _ & Hc & Ho)]; [by left|].
    right. exists c. split; [done|congruence].
  - intros e Hdrv He.
    destruct Hshape as [[Hc _]|(k & c & _ & _ & Hc & Ho)]; [done|].
    rewrite Ho, Hdrv in He. discriminate He.
  - intros idx xy Hidx.
    by rewrite (execute_action_wired _ _ _ FOCUS_ELEMENT_AND_TYPE_TEXT).
Qed.

Lemma execute_action_at_most_one_call_witness :
  calls (execute_action
           {| action_type := Some 1; coords := None;
              ref := Some (Int 5); text := Some "hi" |}
           {| action_types := [NONE; FOCUS_ELEMENT_AND_TYPE_TEXT];
              screen_width := None;
              screen_height := None;
              coord_bins := None;
              allowed_keys := [];
              text_max_len := 64;
              text_charset := Charset_str "hi" |}
           closed_browser)
  = [Call execute_focus_element_and_type_text [Arg_int 5; Arg_str "hi"]].
Proof.
  destruct (execute_action_at_most_one_call
              {| action_type := Some 1; coords := None;
                 ref := Some (Int 5); text := Some "hi" |}
              {| action_types := [NONE; FOCUS_ELEMENT_AND_TYPE_TEXT];
                 screen_width := None;
                 screen_height := None;
                 coord_bins := None;
                 allowed_keys := [];
                 text_max_len := 64;
                 text_charset := Charset_str "hi" |}
              closed_browser) as (_ & _ & _ & _ & _ & Hfocus).
  apply (Hfocus 1 None). reflexivity.
Defined.

(** ** The index of the kind *)

Lemma resolve_action_type_index (action : Action)
    (config : ActionSpaceConfig) (t : Z) :
  action_type action = Some t ->
  resolve_action_type action config = list_getitem (action_types config) t.
Proof. intros Ht. unfold resolve_action_type. by rewrite Ht. Qed.

(** C8. An [action_type] that is no index of [action_types] (at or beyond
    its length, or below minus its length) makes [execute_action] raise
    [IndexError] in its first statement, before any call on the driver. *)
Theorem index_out_of_bounds_raises (action : Action)
    (config : ActionSpaceConfig) (driver : ChromeDriver) (t : Z) :
  action_type action = Some t ->
  t < - Z.of_nat (length (action_types config))
  \/ Z.of_nat (length (action_types config)) <= t ->
  resolve_action_type action config = Raise IndexError /\
  execute_action action config driver = mkEff [] (Raise IndexError).
Proof.
  intros Ht Hout.
  assert (resolve_action_type action config = Raise IndexError) as Hr.
  { rewrite (resolve_action_type_index _ _ _ Ht).
    by apply list_getitem_out_of_range. }
  split; [done|]. by apply execute_action_unresolved.
Qed.

Lemma index_out_of_bounds_raises_witness :
  resolve_action_type
    {| action_type := Some 2; coords := Some [Int 10; Int 20];
       ref := None; text := None |} none_or_click
  = Raise IndexError /\
  execute_action
    {| action_type := Some 2; coords := Some [Int 10; Int 20];
       ref := None; text := None |} none_or_click closed_browser
  = mkEff [] (Raise IndexError).
Proof.
  apply (index_out_of_bounds_raises _ none_or_click closed_browser 2).
  - reflexivity.
  - right. simpl. lia.
Defined.

Lemma get_action_space_action_type (K : constants)
    (self : ActionSpaceConfig) (space : gmap string spaces.Space) :
  get_action_space K self = OK (spaces.Dict space) ->
  space !! "action_type"
  = Some (spaces.Discrete (Z.of_nat (length (action_types self)))).
Proof.
  unfold get_action_space. intros Hs.
  repeat case_match; rewrite ?result_bind_OK, ?result_bind_Raise in Hs;
    try discriminate Hs.
  all: injection Hs as <-; by read_fields.
Qed.

(** C9. A negative [action_type] [t] with [-n <= t <= -1], where [n] is
    [len(action_types)], raises no [IndexError] in the first statement of
    [execute_action]: the kind is the one at position [n + t], and the
    invocation goes on as it does for the index [n + t]. Such a [t] is
    outside the [Discrete(n)] that the action space declares for
    ["action_type"]. *)
Theorem negative_index_wraps (K : constants) (action : Action)
    (config : ActionSpaceConfig) (driver : ChromeDriver) (t : Z) :
  action_type action = Some t ->
  - Z.of_nat (length (action_types config)) <= t <= -1 ->
  (exists k : ActionTypes,
     action_types config
       !! Z.to_nat (Z.of_nat (length (action_types config)) + t) = Some k /\
     resolve_action_type action config = OK k) /\
  execute_action action config driver
  = execute_action
      (with_action_type action (Z.of_nat (length (action_types config)) + t))
      config driver /\
  ~ (0 <= t < Z.of_nat (length (action_types config))) /\
  (forall space : gmap string spaces.Space,
     get_action_space K config = OK (spaces.Dict space) ->
     space !! "action_type"
     = Some (spaces.Discrete (Z.of_nat (length (action_types config))))).
Proof.
  intros Ht Hneg.
  pose proof (list_getitem_negative (action_types config) t Hneg) as Hwrap.
  destruct (list_getitem_in_range (action_types config)
              (Z.of_nat (length (action_types config)) + t))
    as (k & Hk & Hget); [lia|].
  repeat match goal with |- _ /\ _ => split end.
  - exists k. split; [done|].
    by rewrite (resolve_action_type_index _ _ _ Ht), Hwrap.
  - unfold execute_action.
    rewrite (resolve_action_type_index _ _ _ Ht), Hwrap.
    by rewrite (resolve_action_type_index (with_action_type _ _) _ _ eq_refl).
  - lia.
  - intros space. apply get_action_space_action_type.
Qed.

Lemma negative_index_wraps_witness :
  (exists k : ActionTypes,
     action_types none_or_click
       !! Z.to_nat (Z.of_nat (length (action_types none_or_click)) + -1)
     = Some k /\
     resolve_action_type
       {| action_type := Some (-1); coords := Some [Int 10; Int 20];
          ref := None; text := None |} none_or_click = OK k) /\
  execute_action
    {| action_type := Some (-1); coords := Some [Int 10; Int 20];
       ref := None; text := None |} none_or_click closed_browser
  = execute_action
      (with_action_type
         {| action_type := Some (-1); coords := Some [Int 10; Int 20];
            ref := None; text := None |}
         (Z.of_nat (length (action_types none_or_click)) + -1))
      none_or_click closed_browser /\
  ~ (0 <= -1 < Z.of_nat (length (action_types none_or_click))) /\
  (forall space : gmap string spaces.Space,
     get_action_space example_constants none_or_click
     = OK (spaces.Dict space) ->
     space !! "action_type"
     = Some (spaces.Discrete
               (Z.of_nat (length (action_types none_or_click))))).
Proof.
  apply (negative_index_wraps example_constants _ none_or_click
           closed_browser (-1)).
  - reflexivity.
  - simpl. lia.
Defined.

(** ** The action space, further *)

(** The keys of a dict that [get_action_space] has returned. *)
Lemma get_action_space_keys (K : constants) (self : ActionSpaceConfig)
    (space : gmap string spaces.Space) :
  get_action_space K self = OK (spaces.Dict space) ->
  (is_Some (space !! "coords")
   <-> intersects COORDS_ACTIONS (action_types self)) /\
  (is_Some (space !! "ref")
   <-> intersects ELEMENT_ACTIONS (action_types self)) /\
  (is_Some (space !! "text")
   <-> intersects TEXT_ACTIONS (action_types self)) /\
  (is_Some (space !! "field")
   <-> intersects FIELD_ACTIONS (action_types self)) /\
  (is_Some (space !! "key") <-> PRESS_KEY ∈ action_types self).
Proof.
  unfold get_action_space. intros Hs.
  destruct (set_bool (intersection COORDS_ACTIONS _)) eqn:Hc;
    [apply set_bool_intersection in Hc
    |apply set_bool_intersection_false in Hc].
  all: destruct (set_bool (intersection ELEMENT_ACTIONS _)) eqn:He;
    [apply set_bool_intersection in He
    |apply set_bool_intersection_false in He].
  all: destruct (set_bool (intersection TEXT_ACTIONS _)) eqn:Ht;
    [apply set_bool_intersection in Ht
    |apply set_bool_intersection_false in Ht].
  all: destruct (set_bool (intersection FIELD_ACTIONS _)) eqn:Hf;
    [apply set_bool_intersection in Hf
    |apply set_bool_intersection_false in Hf].
  all: destruct (bool_decide (PRESS_KEY ∈ action_types self)) eqn:Hk;
    [apply bool_decide_eq_true in Hk | apply bool_decide_eq_false in Hk].
  all: repeat case_match; rewrite ?result_bind_OK, ?result_bind_Raise in Hs;
    try discriminate Hs; injection Hs as <-.
  all: repeat match goal with |- _ /\ _ => split end; read_fields;
    settle_field.
Qed.



Ltac key_among :=
  match goal with
  | H : _ !! ?key = Some _ |- _ =>
      repeat (rewrite lookup_insert in H; case_decide;
              [subst key; unfold schema_keys; repeat constructor|]);
      try (rewrite lookup_empty in H; discriminate H)
  end.

(** X2. In a dict that [get_action_space] has returned, every key is one
    of the six names; ["coords"] is the [MultiDiscrete] of the two bin counts
    when [coord_bins] is set, and otherwise the [float32] [Box] from
    [[0, 0]] to the screen size; ["ref"] is [Discrete(MAX_REF)], ["key"] is
    [Discrete(len(allowed_keys))], ["text"] is the [Text] of [text_max_len]
    and [text_charset], and ["field"] is [Discrete(MAX_FIELDS)]. *)
Theorem get_action_space_domains (K : constants) (self : ActionSpaceConfig)
    (space : gmap string spaces.Space) :
  get_action_space K self = OK (spaces.Dict space) ->
  (forall (key : string) (s : spaces.Space),
     space !! key = Some s -> key ∈ schema_keys) /\
  (forall (s : spaces.Space) (bx by_ : Z),
     space !! "coords" = Some s -> coord_bins self = Some (bx, by_) ->
     s = spaces.MultiDiscrete (np_array [Int bx; Int by_] None)) /\
  (forall s : spaces.Space,
     space !! "coords" = Some s -> coord_bins self = None ->
     exists w h : num,
       screen_width self = Some w /\ screen_height self = Some h /\
       s = spaces.Box (np_array [Float 0; Float 0] (Some np_float32))
                      (np_array [w; h] (Some np_float32))) /\
  (forall s : spaces.Space,
     space !! "ref" = Some s -> s = spaces.Discrete (MAX_REF K)) /\
  (forall s : spaces.Space,
     space !! "key" = Some s ->
     s = spaces.Discrete (Z.of_nat (length (allowed_keys self)))) /\
  (forall s : spaces.Space,
     space !! "text" = Some s ->
     s = spaces.Text (text_max_len self) (text_charset self)) /\
  (forall s : spaces.Space,
     space !! "field" = Some s -> s = spaces.Discrete (MAX_FIELDS K)).
Proof.
  unfold get_action_space. intros Hs.
  repeat case_match; rewrite ?result_bind_OK, ?result_bind_Raise in Hs;
    try discriminate Hs; injection Hs as <-.
  all: repeat match goal with |- _ /\ _ => split end.
  all: try (intros key s Hkey; key_among; fail).
  all: intros; simplify_map_eq; eauto.
Qed.

(** ** The dispatcher, further *)

Lemma list_getitem_elem_of {A : Type} (l : list A) (t : Z) (x : A) :
  list_getitem l t = OK x -> x ∈ l.
Proof.
  unfold list_getitem. intros Hx.
  repeat case_match; try discriminate Hx.
  all: injection Hx as <-; by eapply list_elem_of_lookup_2.
Qed.

Lemma resolve_action_type_elem_of (action : Action)
    (config : ActionSpaceConfig) (k : ActionTypes) :
  resolve_action_type action config = OK k -> k ∈ action_types config.
Proof.
  unfold resolve_action_type.
  destruct (action_type action) as [t|]; [|discriminate].
  cbn [dict_getitem]. rewrite result_bind_OK.
  apply list_getitem_elem_of.
Qed.

Lemma COORDS_ACTIONS_named (k : ActionTypes) :
  k ∈ COORDS_ACTIONS ->
  exists fn, table_getitem k = OK (Some fn) /\ named_after k fn.
Proof.
  intros Hk. rewrite table_getitem_cases. unfold named_after.
  pose proof (proj2 (bool_decide_eq_true _) Hk) as Hb.
  destruct k; try (vm_compute in Hb; discriminate Hb);
    eexists; (split; [reflexivity|]); tauto.
Qed.

(** X3. For a coordinate kind, [execute_action] passes what
    [compute_raw_coords] returns to the function that carries the name of
    the kind, in one call; when [compute_raw_coords] raises, the exception
    is raised without a call. *)
Theorem execute_action_coords_kind (action : Action)
    (config : ActionSpaceConfig) (driver : ChromeDriver) (k : ActionTypes) :
  resolve_action_type action config = OK k ->
  k ∈ COORDS_ACTIONS ->
  exists fn : selenium_fn,
    _ACTION_TYPE_TO_SELENIUM_ACTION_FN !! k = Some (Some fn) /\
    named_after k fn /\
    (forall l t : float,
       compute_raw_coords config action = OK (l, t) ->
       execute_action action config driver
       = mkEff [Call fn [Arg_float l; Arg_float t]]
               (driver (Call fn [Arg_float l; Arg_float t]))) /\
    (forall e : exn,
       compute_raw_coords config action = Raise e ->
       execute_action action config driver = mkEff [] (Raise e)).
Proof.
  intros Hr Hk.
  destruct (COORDS_ACTIONS_named k Hk) as (fn & Htable & Hname).
  exists fn. split; [|split; [done|]].
  { unfold table_getitem in Htable.
    destruct (_ACTION_TYPE_TO_SELENIUM_ACTION_FN !! k); congruence. }
  rewrite (execute_action_wired _ _ _ _ Hr). unfold coords_branch.
  destruct Hname as [[-> ->]|[[-> ->]|[[-> ->]|[[-> ->]|[-> ->]]]]];
    split; intros; by match goal with H : _ = _ |- _ => rewrite H end.
Qed.

Lemma execute_action_coords_kind_witness :
  exists fn : selenium_fn,
    _ACTION_TYPE_TO_SELENIUM_ACTION_FN !! DBLCLICK_COORDS = Some (Some fn) /\
    named_after DBLCLICK_COORDS fn /\
    (forall l t : float,
       compute_raw_coords (with_action_types binned_800_600 [DBLCLICK_COORDS])
         (at_coords (Int 3) (Int 1)) = OK (l, t) ->
       execute_action (at_coords (Int 3) (Int 1))
         (with_action_types binned_800_600 [DBLCLICK_COORDS]) closed_browser
       = mkEff [Call fn [Arg_float l; Arg_float t]]
               (closed_browser (Call fn [Arg_float l; Arg_float t]))) /\
    (forall e : exn,
       compute_raw_coords (with_action_types binned_800_600 [DBLCLICK_COORDS])
         (at_coords (Int 3) (Int 1)) = Raise e ->
       execute_action (at_coords (Int 3) (Int 1))
         (with_action_types binned_800_600 [DBLCLICK_COORDS]) closed_browser
       = mkEff [] (Raise e)).
Proof.
  apply (execute_action_coords_kind (at_coords (Int 3) (Int 1))
           (with_action_types binned_800_600 [DBLCLICK_COORDS])
           closed_browser DBLCLICK_COORDS).
  - reflexivity.
  - vm_compute. reflexivity.
Defined.

(** The geometry guard comes before the lookup of ["coords"]. *)
Lemma compute_raw_coords_no_coords (self : ActionSpaceConfig)
    (action : Action) :
  coords action = None ->
  compute_raw_coords self action
  = if bool_decide (is_Some (coord_bins self))
       && (py_not (screen_width self) || py_not (screen_height self))
    then Raise (ValueError Screen_size_must_be_specified)
    else Raise (KeyError (Key_str "coords")).
Proof.
  intros Hc. unfold compute_raw_coords. rewrite Hc.
  destruct (coord_bins self) as [[bx by_]|]; [|reflexivity].
  rewrite bool_decide_eq_true_2 by eauto. cbn [andb].
  destruct (py_not (screen_width self) || py_not (screen_height self))
    eqn:Hf; [reflexivity|].
  apply orb_false_iff in Hf as [Hw Hh].
  destruct (screen_width self); [|discriminate Hw].
  destruct (screen_height self); [|discriminate Hh]. reflexivity.
Qed.

(** X4. A field that the branch of the kind reads and the instance lacks
    makes [execute_action] raise [KeyError] with the name of the field,
    without a call: ["action_type"] for every instance; ["coords"] for a
    coordinate kind, unless the guard on the screen size of
    [compute_raw_coords] raises first; ["ref"] for [CLICK_ELEMENT] and
    [FOCUS_ELEMENT_AND_TYPE_TEXT], whether or not ["text"] is there;
    ["text"] for [TYPE_TEXT], and for [FOCUS_ELEMENT_AND_TYPE_TEXT] once
    ["ref"] has been read. *)
Theorem execute_action_missing_field (action : Action)
    (config : ActionSpaceConfig) (driver : ChromeDriver) :
  (action_type action = None ->
   execute_action action config driver
   = mkEff [] (Raise (KeyError (Key_str "action_type")))) /\
  (forall k : ActionTypes,
     resolve_action_type action config = OK k -> k ∈ COORDS_ACTIONS ->
     coords action = None ->
     execute_action action config driver
     = mkEff []
         (if bool_decide (is_Some (coord_bins config))
             && (py_not (screen_width config) || py_not (screen_height config))
          then Raise (ValueError Screen_size_must_be_specified)
          else Raise (KeyError (Key_str "coords")))) /\
  (forall k : ActionTypes,
     resolve_action_type action config = OK k ->
     k = CLICK_ELEMENT \/ k = FOCUS_ELEMENT_AND_TYPE_TEXT ->
     ref action = None ->
     execute_action action config driver
     = mkEff [] (Raise (KeyError (Key_str "ref")))) /\
  (resolve_action_type action config = OK TYPE_TEXT ->
   text action = None ->
   execute_action action config driver
   = mkEff [] (Raise (KeyError (Key_str "text")))) /\
  (forall (x : num) (r : Z),
     resolve_action_type action config = OK FOCUS_ELEMENT_AND_TYPE_TEXT ->
     ref action = Some x -> py_int x = OK r ->
     text action = None ->
     execute_action action config driver
     = mkEff [] (Raise (KeyError (Key_str "text")))).
Proof.
  repeat match goal with |- _ /\ _ => split end.
  - intros Ht. apply execute_action_unresolved.
    unfold resolve_action_type. by rewrite Ht.
  - intros k Hr Hk Hc.
    pose proof (compute_raw_coords_no_coords config action Hc) as Hraw.
    rewrite (execute_action_wired _ _ _ _ Hr).
    pose proof (proj2 (bool_decide_eq_true _) Hk) as Hb.
    destruct k; try (vm_compute in Hb; discriminate Hb);
      unfold coords_branch; rewrite Hraw; by case_match.
  - intros k Hr [-> | ->] Href;
      rewrite (execute_action_wired _ _ _ _ Hr); unfold ref_branch;
      by rewrite Href.
  - intros Hr Htext. rewrite (execute_action_wired _ _ _ _ Hr).
    by rewrite Htext.
  - intros x r Hr Href Hint Htext.
    rewrite (execute_action_wired _ _ _ _ Hr). unfold ref_branch.
    rewrite Href. cbn [dict_getitem]. rewrite result_bind_OK, Hint.
    unfold text_argument. by rewrite Htext.
Qed.

Lemma execute_action_missing_field_witness :
  execute_action
    {| action_type := Some 4; coords := None; ref := None; text := None |}
    all_supported_160_210 closed_browser
  = mkEff [] (Raise (KeyError (Key_str "ref"))).
Proof.
  destruct (execute_action_missing_field
              {| action_type := Some 4; coords := None; ref := None;
                 text := None |}
              all_supported_160_210 closed_browser) as (_ & _ & Href & _).
  apply (Href FOCUS_ELEMENT_AND_TYPE_TEXT).
  - reflexivity.
  - right. reflexivity.
  - reflexivity.
Defined.

Lemma numeric_error_own (e : exn) : numeric_error e -> own_error e.
Proof. destruct e as [[]| | | | | |]; simpl; tauto. Qed.

Lemma result_bind_Raise_inv {A B : Type} (r : result A)
    (f : A -> result B) (e : exn) :
  r ≫= f = Raise e ->
  r = Raise e \/ exists a, r = OK a /\ f a = Raise e.
Proof.
  destruct r as [a|e']; intros H; [right; eauto|].
  left. rewrite result_bind_Raise in H. by injection H as ->.
Qed.

Lemma list_getitem_numeric_error {A : Type} (l : list A) (i : Z) (e : exn) :
  list_getitem l i = Raise e -> numeric_error e.
Proof.
  unfold list_getitem. intros H. repeat case_match; simplify_eq; exact I.
Qed.

Lemma py_int_numeric_error (x : num) (e : exn) :
  py_int x = Raise e -> numeric_error e.
Proof.
  destruct x as [z|f]; [discriminate|]. simpl. unfold int_of_float.
  case_match; intros [= <-]; exact I.
Qed.

Lemma float_of_int_numeric_error (z : Z) (e : exn) :
  float_of_int z = Raise e -> numeric_error e.
Proof. unfold float_of_int. case_match; [discriminate|]. by intros [= <-]. Qed.

Lemma py_float_numeric_error (x : num) (e : exn) :
  py_float x = Raise e -> numeric_error e.
Proof. destruct x; [apply float_of_int_numeric_error | discriminate]. Qed.

Lemma float_add_int_numeric_error (x : float) (z : Z) (e : exn) :
  float_add_int x z = Raise e -> numeric_error e.
Proof.
  unfold float_add_int. intros H.
  apply result_bind_Raise_inv in H as [H | (? & _ & H)];
    [by eapply float_of_int_numeric_error | discriminate H].
Qed.

Lemma true_divide_numeric_error (x : num) (b : Z) (e : exn) :
  true_divide x b = Raise e -> numeric_error e.
Proof.
  destruct x as [a|f]; simpl.
  - unfold int_true_divide. repeat case_match; try discriminate;
      by intros [= <-].
  - intros H. apply result_bind_Raise_inv in H as [H | (? & _ & H)];
      [by eapply float_of_int_numeric_error|].
    case_match; [|discriminate H]. by injection H as <-.
Qed.

(** Peels the steps off a computation in [result] that has raised: a step
    either raised, which a lemma on the step settles, or returned. *)
Ltac raised_in H :=
  repeat
    (apply result_bind_Raise_inv in H as [H | (? & _ & H)];
     [ first [ discriminate H
             | by eapply list_getitem_numeric_error
             | by eapply py_int_numeric_error
             | by eapply py_float_numeric_error
             | by eapply float_add_int_numeric_error
             | by eapply true_divide_numeric_error ]
     | ]).

(** The three ways in which [compute_raw_coords] raises. *)
Lemma compute_raw_coords_raises (self : ActionSpaceConfig)
    (action : Action) (e : exn) :
  compute_raw_coords self action = Raise e ->
  (e = ValueError Screen_size_must_be_specified /\
   is_Some (coord_bins self) /\
   py_not (screen_width self) || py_not (screen_height self) = true)
  \/ (e = KeyError (Key_str "coords") /\ coords action = None)
  \/ numeric_error e.
Proof.
  unfold compute_raw_coords. intros H.
  destruct (coord_bins self) as [[bx by_]|].
  - destruct (py_not (screen_width self) || py_not (screen_height self))
      eqn:Hf; [injection H as <-; left; eauto|].
    apply orb_false_iff in Hf as [Hw Hh].
    destruct (screen_width self) as [w|]; [|discriminate Hw].
    destruct (screen_height self) as [h|]; [|discriminate Hh].
    right. destruct (coords action) as [c|]; cbn [dict_getitem] in H.
    + right. rewrite result_bind_OK in H. raised_in H. discriminate H.
    + left. rewrite result_bind_Raise in H. by injection H as <-.
  - right. destruct (coords action) as [c|]; cbn [dict_getitem] in H.
    + right. rewrite result_bind_OK in H. raised_in H. discriminate H.
    + left. rewrite result_bind_Raise in H. by injection H as <-.
Qed.

Lemma compute_raw_coords_own_error (self : ActionSpaceConfig)
    (action : Action) (e : exn) :
  compute_raw_coords self action = Raise e -> own_error e.
Proof.
  intros H.
  destruct (compute_raw_coords_raises _ _ _ H) as [[-> _]|[[-> _]|Hn]];
    [exact I | exact I | by apply numeric_error_own].
Qed.

Lemma py_int_own_error (x : num) (e : exn) :
  py_int x = Raise e -> own_error e.
Proof. intros H. by eapply numeric_error_own, py_int_numeric_error. Qed.

(** X5. What [execute_action] raises before it has made a call is a
    [KeyError], an [IndexError], an [OverflowError], a [ZeroDivisionError],
    the [ValueError] for the missing screen size or the one of [int()] for
    a NaN: never the [ValueError] for an unsupported action type of its
    last branch, and never a [TypeError] for calling the [None] of the
    table. *)
Theorem execute_action_own_errors (action : Action)
    (config : ActionSpaceConfig) (driver : ChromeDriver) (e : exn) :
  execute_action action config driver = mkEff [] (Raise e) ->
  own_error e /\
  (forall k, e <> ValueError (Unsupported_action_type k)) /\
  e <> TypeError.
Proof.
  intros Hrun.
  assert (own_error e) as Hown.
  { destruct (resolve_action_type action config) as [k|e'] eqn:Hr.
    2:{ rewrite (execute_action_unresolved _ _ _ _ Hr) in Hrun.
        injection Hrun as <-. unfold resolve_action_type in Hr.
        destruct (action_type action) as [t|]; cbn [dict_getitem] in Hr.
        - rewrite result_bind_OK in Hr. unfold list_getitem in Hr.
          repeat case_match; simplify_eq; exact I.
        - rewrite result_bind_Raise in Hr. by injection Hr as <-. }
    rewrite (execute_action_wired _ _ _ _ Hr) in Hrun.
    destruct k; unfold coords_branch, ref_branch, text_argument in Hrun;
      try (injection Hrun as <-; exact I);
      try (destruct (compute_raw_coords config action) as [[l t]|e'] eqn:Hraw;
           [discriminate Hrun
           |injection Hrun as <-; by eapply compute_raw_coords_own_error]).
    - discriminate Hrun.
    - destruct (ref action) as [x|]; cbn [dict_getitem] in Hrun.
      + rewrite result_bind_OK in Hrun.
        destruct (py_int x) as [r|e'] eqn:Hint; [discriminate Hrun|].
        injection Hrun as <-. by eapply py_int_own_error.
      + rewrite result_bind_Raise in Hrun. by injection Hrun as <-.
    - destruct (text action); [discriminate Hrun|].
      by injection Hrun as <-.
    - destruct (ref action) as [x|]; cbn [dict_getitem] in Hrun.
      + rewrite result_bind_OK in Hrun.
        destruct (py_int x) as [r|e'] eqn:Hint.
        * destruct (text action); [discriminate Hrun|].
          by injection Hrun as <-.
        * injection Hrun as <-. by eapply py_int_own_error.
      + rewrite result_bind_Raise in Hrun. by injection Hrun as <-. }
  split; [done|]. split.
  - intros k ->. exact Hown.
  - intros ->. exact Hown.
Qed.

Lemma execute_action_own_errors_witness :
  own_error IndexError /\
  (forall k, IndexError <> ValueError (Unsupported_action_type k)) /\
  IndexError <> TypeError.
Proof.
  apply (execute_action_own_errors
           {| action_type := Some 2; coords := None; ref := None;
              text := None |} none_or_click closed_browser IndexError).
  reflexivity.
Defined.

(** X6. [execute_action] reads four fields of the configuration:
    [action_types], [screen_width], [screen_height] and [coord_bins]. Two
    configurations that agree on them dispatch every instance alike,
    whatever their [allowed_keys], [text_max_len] and [text_charset]: a
    text is never checked against the length or the characters that the
    action space announces. *)
Theorem execute_action_config_frame (action : Action)
    (config config' : ActionSpaceConfig) (driver : ChromeDriver) :
  action_types config = action_types config' ->
  screen_width config = screen_width config' ->
  screen_height config = screen_height config' ->
  coord_bins config = coord_bins config' ->
  compute_raw_coords config action = compute_raw_coords config' action /\
  execute_action action config driver = execute_action action config' driver.
Proof.
  intros Ht Hw Hh Hb.
  assert (compute_raw_coords config action
          = compute_raw_coords config' action) as Hraw.
  { unfold compute_raw_coords. by rewrite Hw, Hh, Hb. }
  split; [done|].
  unfold execute_action, resolve_action_type. by rewrite Ht, Hraw.
Qed.

Lemma execute_action_config_frame_witness :
  compute_raw_coords none_or_click (at_coords (Int 10) (Int 20))
  = compute_raw_coords
      (with_screen_size (with_action_types all_supported_160_210
                           [NONE; CLICK_COORDS]) (Int 300) (Int 200))
      (at_coords (Int 10) (Int 20)) /\
  execute_action (at_coords (Int 10) (Int 20)) none_or_click closed_browser
  = execute_action (at_coords (Int 10) (Int 20))
      (with_screen_size (with_action_types all_supported_160_210
                           [NONE; CLICK_COORDS]) (Int 300) (Int 200))
      closed_browser.
Proof.
  apply (execute_action_config_frame (at_coords (Int 10) (Int 20))
           none_or_click
           (with_screen_size (with_action_types all_supported_160_210
                                [NONE; CLICK_COORDS]) (Int 300) (Int 200))
           closed_browser); reflexivity.
Defined.

Lemma has_key_coords (action : Action) :
  has_key action "coords" = true -> is_Some (coords action).
Proof. unfold has_key. cbn. apply bool_decide_eq_true. Qed.

Lemma has_key_ref (action : Action) :
  has_key action "ref" = true -> is_Some (ref action).
Proof. unfold has_key. cbn. apply bool_decide_eq_true. Qed.

Lemma has_key_text (action : Action) :
  has_key action "text" = true -> is_Some (text action).
Proof. unfold has_key. cbn. apply bool_decide_eq_true. Qed.

(** X7. An instance that has every key of the dict returned by
    [get_action_space] never makes [execute_action] raise the [KeyError]
    of a missing field: each field that the branch of a configured kind
    reads is announced by the action space. *)
Theorem schema_keys_suffice (K : constants) (action : Action)
    (config : ActionSpaceConfig) (driver : ChromeDriver)
    (space : gmap string spaces.Space) (key : string) :
  get_action_space K config = OK (spaces.Dict space) ->
  (forall name : string,
     is_Some (space !! name) -> has_key action name = true) ->
  execute_action action config driver
  <> mkEff [] (Raise (KeyError (Key_str key))).
Proof.
  intros Hspace Hkeys Hrun.
  destruct (get_action_space_keys K config space Hspace)
    as (Hcoords & Href & Htext & _ & _).
  pose proof (get_action_space_action_type K config space Hspace) as Hat.
  assert (is_Some (action_type action)) as [t Ht].
  { assert (has_key action "action_type" = true) as Hk
      by (apply Hkeys; rewrite Hat; eauto).
    unfold has_key in Hk. cbn in Hk. by apply bool_decide_eq_true in Hk. }
  destruct (resolve_action_type action config) as [k|e] eqn:Hr.
  2:{ rewrite (execute_action_unresolved _ _ _ _ Hr) in Hrun.
      injection Hrun as ->.
      rewrite (resolve_action_type_index _ _ _ Ht) in Hr.
      by apply list_getitem_numeric_error in Hr. }
  pose proof (resolve_action_type_elem_of _ _ _ Hr) as Hin.
  assert (forall group : gset ActionTypes,
            k ∈ group -> intersects group (action_types config)) as Hmeets
    by (intros group Hg; exists k; done).
  rewrite (execute_action_wired _ _ _ _ Hr) in Hrun.
  destruct k; try discriminate Hrun.
  1-5: assert (is_Some (coords action)) as [c Hc]
         by (apply has_key_coords, Hkeys, Hcoords, Hmeets;
             vm_compute; reflexivity);
       unfold coords_branch in Hrun;
       destruct (compute_raw_coords config action) as [[l u]|e] eqn:Hraw;
       [discriminate Hrun|]; injection Hrun as ->;
       destruct (compute_raw_coords_raises _ _ _ Hraw)
         as [[? _]|[[_ ?]|?]]; congruence || done.
  - assert (is_Some (ref action)) as [x Hx]
      by (apply has_key_ref, Hkeys, Href, Hmeets; vm_compute; reflexivity).
    unfold ref_branch in Hrun. rewrite Hx in Hrun.
    cbn [dict_getitem] in Hrun. rewrite result_bind_OK in Hrun.
    destruct (py_int x) as [r|e] eqn:Hint; [discriminate Hrun|].
    injection Hrun as ->. by apply py_int_numeric_error in Hint.
  - assert (is_Some (text action)) as [s Hs]
      by (apply has_key_text, Hkeys, Htext, Hmeets; vm_compute; reflexivity).
    rewrite Hs in Hrun. discriminate Hrun.
  - assert (is_Some (ref action)) as [x Hx]
      by (apply has_key_ref, Hkeys, Href, Hmeets; vm_compute; reflexivity).
    assert (is_Some (text action)) as [s Hs]
      by (apply has_key_text, Hkeys, Htext, Hmeets; vm_compute; reflexivity).
    unfold ref_branch, text_argument in Hrun. rewrite Hx, Hs in Hrun.
    cbn [dict_getitem] in Hrun. rewrite !result_bind_OK in Hrun.
    destruct (py_int x) as [r|e] eqn:Hint; [discriminate Hrun|].
    injection Hrun as ->. by apply py_int_numeric_error in Hint.
Qed.

Lemma schema_keys_suffice_witness :
  execute_action (full_instance 1) all_supported_160_210 closed_browser
  <> mkEff [] (Raise (KeyError (Key_str "coords"))).
Proof.
  apply (schema_keys_suffice example_constants (full_instance 1)
           all_supported_160_210 closed_browser
           all_supported_160_210_space "coords").
  - reflexivity.
  - intros name _. unfold has_key. repeat case_decide; reflexivity.
Defined.

(** X8. [execute_action] calls nothing but the function that the table
    holds for a kind of [action_types]: a call that has been made is the
    call of the entry of a configured kind other than [NONE]. *)
Theorem execute_action_calls_configured (action : Action)
    (config : ActionSpaceConfig) (driver : ChromeDriver)
    (c : selenium_call) :
  c ∈ calls (execute_action action config driver) ->
  exists k : ActionTypes,
    k ∈ action_types config /\ k <> NONE /\
    resolve_action_type action config = OK k /\
    _ACTION_TYPE_TO_SELENIUM_ACTION_FN !! k = Some (Some (callee c)).
Proof.
  intros Hc.
  destruct (resolve_action_type action config) as [k|e] eqn:Hr.
  2:{ rewrite (execute_action_unresolved _ _ _ _ Hr) in Hc.
      by apply elem_of_nil in Hc. }
  exists k. split; [by eapply resolve_action_type_elem_of|].
  rewrite (execute_action_wired _ _ _ _ Hr) in Hc.
  destruct k; unfold coords_branch, ref_branch, text_argument in Hc;
    repeat case_match; cbn [calls] in Hc;
    try (by apply elem_of_nil in Hc);
    apply list_elem_of_singleton in Hc as ->;
    (split; [discriminate|]); split; reflexivity.
Qed.

Lemma execute_action_calls_configured_witness :
  exists k : ActionTypes,
    k ∈ action_types all_supported_160_210 /\ k <> NONE /\
    resolve_action_type (full_instance 2) all_supported_160_210 = OK k /\
    _ACTION_TYPE_TO_SELENIUM_ACTION_FN !! k
    = Some (Some (callee (Call execute_click_element [Arg_int 5]))).
Proof.
  apply (execute_action_calls_configured (full_instance 2)
           all_supported_160_210 closed_browser).
  vm_compute. left.
Defined.

Lemma true_divide_zero (x : num) :
  true_divide x 0 = Raise ZeroDivisionError.
Proof. by destruct x. Qed.

(** Runs a computation in [result] whose steps are settled by the
    hypotheses at hand. *)
Ltac run_with Hx Hy :=
  repeat first
    [ rewrite result_bind_OK
    | rewrite result_bind_Raise
    | rewrite list_getitem_0
    | rewrite list_getitem_1
    | rewrite Hx
    | rewrite Hy
    | rewrite true_divide_zero
    | rewrite float_of_int_representable by assumption
    | progress cbn [dict_getitem py_int coords with_coords] ].

(** X9. A bin count of zero is not refused when the configuration is
    built, nor by the guard of [compute_raw_coords]: the division by it
    raises [ZeroDivisionError], for the first axis or, once the first axis
    has been computed, for the second. *)
Theorem compute_raw_coords_zero_bins (self : ActionSpaceConfig)
    (action : Action) (bx by_ i j : Z) (w h x y : num) (rest : list num) :
  coord_bins self = Some (bx, by_) ->
  screen_width self = Some w -> py_bool w = true -> representable w ->
  screen_height self = Some h -> py_bool h = true ->
  coords action = Some (x :: y :: rest) ->
  py_int x = OK i -> Z.abs i < DBL_OVERFLOW ->
  py_int y = OK j -> Z.abs j < DBL_OVERFLOW ->
  Z.abs bx < DBL_OVERFLOW ->
  bx = 0 \/ by_ = 0 ->
  compute_raw_coords self action = Raise ZeroDivisionError.
Proof.
  intros Hbins Hw Hwt Hwr Hh Hht Hc Hx Hi Hy Hj Hbx Hzero.
  unfold compute_raw_coords. rewrite Hbins, Hw, Hh.
  rewrite (py_not_Some_true _ Hwt), (py_not_Some_true _ Hht), Hc.
  unfold float_add_int. cbn [orb].
  destruct (Z.eq_dec bx 0) as [-> | Hne].
  - by run_with Hx Hy.
  - destruct Hzero as [-> | ->]; [done|].
    destruct (true_divide_returns w bx Hwr Hne Hbx) as [cell_w Hcw].
    by run_with Hx Hy; rewrite Hcw; run_with Hx Hy.
Qed.

Lemma compute_raw_coords_zero_bins_witness :
  compute_raw_coords
    {| action_types := [CLICK_COORDS];
       screen_width := Some (Float 160);
       screen_height := Some (Int 210);
       coord_bins := Some (4, 0);
       allowed_keys := [];
       text_max_len := 0;
       text_charset := Charset_str "ab" |}
    (full_instance 0)
  = Raise ZeroDivisionError.
Proof.
  apply (compute_raw_coords_zero_bins _ _ 4 0 2 7 (Float 160) (Int 210)
           (Float 2.5) (Float 7.75) []);
    try reflexivity; try exact I. right. reflexivity.
Defined.

(** X10. With [coord_bins] set, the coordinates of the instance count
    through [int()] only: an instance with the coordinates [x] and [y]
    gives what the instance with [int(x)] and [int(y)] gives, so that a
    fractional coordinate falls into the bin of its integer part, towards
    zero. *)
Theorem compute_raw_coords_truncates (self : ActionSpaceConfig)
    (action : Action) (i j : Z) (x y : num) (rest : list num) :
  is_Some (coord_bins self) ->
  coords action = Some (x :: y :: rest) ->
  py_int x = OK i -> py_int y = OK j ->
  compute_raw_coords self action
  = compute_raw_coords self (with_coords action [Int i; Int j]).
Proof.
  intros [[bx by_] Hbins] Hc Hx Hy.
  unfold compute_raw_coords. rewrite Hbins.
  destruct (py_not (screen_width self) || py_not (screen_height self));
    [reflexivity|].
  destruct (screen_width self) as [w|], (screen_height self) as [h|];
    try reflexivity.
  rewrite Hc. run_with Hx Hy.
  destruct (float_add_int 0.5 i) as [ci|e]; [|reflexivity].
  run_with Hx Hy.
  destruct (true_divide w bx) as [cell_w|e]; [|reflexivity].
  by run_with Hx Hy.
Qed.

Lemma compute_raw_coords_truncates_witness :
  compute_raw_coords binned_800_600 (full_instance 0)
  = compute_raw_coords binned_800_600
      (with_coords (full_instance 0) [Int 2; Int 7]).
Proof.
  apply (compute_raw_coords_truncates binned_800_600 (full_instance 0) 2 7
           (Float 2.5) (Float 7.75) []); try reflexivity.
  eexists. reflexivity.
Defined.

(** ** The preset and the index, further *)

(** X11. The preset ["all_supported"] comes without a screen size and has
    a coordinate kind: [get_action_space] raises on it as it is. Once both
    dimensions are set to numbers other than zero, the dict has the keys
    ["action_type"], ["coords"], ["ref"] and ["text"] and no other. Each of
    its kinds has an entry in the table of the dispatcher. *)
Theorem preset_action_space (K : constants) (config : ActionSpaceConfig) :
  get_preset K "all_supported" = OK config ->
  get_action_space K config
  = Raise (ValueError Screen_size_must_be_specified) /\
  (forall w h : num,
     py_bool w = true -> py_bool h = true ->
     exists space : gmap string spaces.Space,
       get_action_space K (with_screen_size config w h)
       = OK (spaces.Dict space) /\
       forall key : string,
         is_Some (space !! key)
         <-> key ∈ ["action_type"; "coords"; "ref"; "text"]) /\
  (forall k : ActionTypes,
     k ∈ action_types config -> k ∉ unwired).
Proof.
  intros Hp. injection Hp as <-. split; [|split].
  - apply get_action_space_falsy_geometry; [|reflexivity].
    apply set_bool_intersection. reflexivity.
  - intros w h Hw Hh.
    unfold get_action_space, with_screen_size, ActionSpaceConfig_init.
    cbn [action_types screen_width screen_height coord_bins allowed_keys
         text_max_len text_charset].
    assert (set_bool (intersection COORDS_ACTIONS
              [NONE; CLICK_COORDS; CLICK_ELEMENT; TYPE_TEXT;
               FOCUS_ELEMENT_AND_TYPE_TEXT]) = true) as -> by reflexivity.
    assert (set_bool (intersection ELEMENT_ACTIONS
              [NONE; CLICK_COORDS; CLICK_ELEMENT; TYPE_TEXT;
               FOCUS_ELEMENT_AND_TYPE_TEXT]) = true) as -> by reflexivity.
    assert (set_bool (intersection TEXT_ACTIONS
              [NONE; CLICK_COORDS; CLICK_ELEMENT; TYPE_TEXT;
               FOCUS_ELEMENT_AND_TYPE_TEXT]) = true) as -> by reflexivity.
    assert (set_bool (intersection FIELD_ACTIONS
              [NONE; CLICK_COORDS; CLICK_ELEMENT; TYPE_TEXT;
               FOCUS_ELEMENT_AND_TYPE_TEXT]) = false) as -> by reflexivity.
    assert (bool_decide (PRESS_KEY ∈
              [NONE; CLICK_COORDS; CLICK_ELEMENT; TYPE_TEXT;
               FOCUS_ELEMENT_AND_TYPE_TEXT]) = false) as -> by reflexivity.
    rewrite (py_not_Some_true _ Hw), (py_not_Some_true _ Hh).
    cbn [orb]. rewrite result_bind_OK.
    eexists. split; [reflexivity|]. intros key. split.
    + intros [s Hs].
      repeat (rewrite lookup_insert in Hs; case_decide;
              [subst key; repeat constructor|]).
      rewrite lookup_empty in Hs. discriminate Hs.
    + rewrite !elem_of_cons, elem_of_nil.
      intros [->|[->|[->|[->|[]]]]]; read_fields; eauto.
  - cbn [action_types ActionSpaceConfig_init]. intros k Hk Hu.
    rewrite !elem_of_cons, elem_of_nil in Hk. unfold unwired in Hu.
    rewrite !elem_of_cons, elem_of_nil in Hu.
    destruct Hk as [->|[->|[->|[->|[->|[]]]]]];
      destruct Hu as [?|[?|[?|[?|[?|[]]]]]]; discriminate.
Qed.

Lemma preset_action_space_witness :
  get_action_space example_constants
    (ActionSpaceConfig_init example_constants
       [ NONE; CLICK_COORDS; CLICK_ELEMENT; TYPE_TEXT;
         FOCUS_ELEMENT_AND_TYPE_TEXT ])
  = Raise (ValueError Screen_size_must_be_specified) /\
  (forall w h : num,
     py_bool w = true -> py_bool h = true ->
     exists space : gmap string spaces.Space,
       get_action_space example_constants
         (with_screen_size
            (ActionSpaceConfig_init example_constants
               [ NONE; CLICK_COORDS; CLICK_ELEMENT; TYPE_TEXT;
                 FOCUS_ELEMENT_AND_TYPE_TEXT ]) w h)
       = OK (spaces.Dict space) /\
       forall key : string,
         is_Some (space !! key)
         <-> key ∈ ["action_type"; "coords"; "ref"; "text"]) /\
  (forall k : ActionTypes,
     k ∈ action_types
           (ActionSpaceConfig_init example_constants
              [ NONE; CLICK_COORDS; CLICK_ELEMENT; TYPE_TEXT;
                FOCUS_ELEMENT_AND_TYPE_TEXT ]) ->
     k ∉ unwired).
Proof.
  apply (preset_action_space example_constants). reflexivity.
Defined.

Lemma list_getitem_OK_iff {A : Type} (l : list A) (t : Z) (x : A) :
  list_getitem l t = OK x <->
  - Z.of_nat (length l) <= t < Z.of_nat (length l) /\
  l !! Z.to_nat (t mod Z.of_nat (length l)) = Some x.
Proof.
  split.
  - intros Hget.
    destruct (Z_lt_le_dec t (- Z.of_nat (length l))) as [Hlo|Hlo].
    { rewrite list_getitem_out_of_range in Hget by lia. discriminate. }
    destruct (Z_lt_le_dec t (Z.of_nat (length l))) as [Hhi|Hhi].
    2:{ rewrite list_getitem_out_of_range in Hget by lia. discriminate. }
    split; [lia|].
    destruct (Z_lt_le_dec t 0) as [Hneg|Hpos].
    + rewrite list_getitem_negative in Hget by lia.
      destruct (list_getitem_in_range l (Z.of_nat (length l) + t))
        as (y & Hy & Hgy); [lia|].
      rewrite <- (Z.mod_add t 1) by lia. rewrite Z.mod_small by lia.
      rewrite Z.mul_1_l, Z.add_comm. congruence.
    + destruct (list_getitem_in_range l t) as (y & Hy & Hgy); [lia|].
      rewrite Z.mod_small by lia. congruence.
  - intros [Hrange Hx].
    destruct (Z_lt_le_dec t 0) as [Hneg|Hpos].
    + rewrite list_getitem_negative by lia.
      destruct (list_getitem_in_range l (Z.of_nat (length l) + t))
        as (y & Hy & Hgy); [lia|].
      rewrite <- (Z.mod_add t 1) in Hx by lia.
      rewrite Z.mod_small in Hx by lia.
      rewrite Z.mul_1_l, Z.add_comm in Hx. congruence.
    + destruct (list_getitem_in_range l t) as (y & Hy & Hgy); [lia|].
      rewrite Z.mod_small in Hx by lia. congruence.
Qed.

(** X12. The first statement of [execute_action] resolves a kind exactly
    for the instances that have an ["action_type"] [t] with
    [-n <= t < n], where [n] is [len(action_types)], and the kind is the
    one at position [t mod n]: the positions from the front for
    [0 <= t < n], the same positions counted from the end for [t < 0]. *)
Theorem resolve_action_type_iff (action : Action)
    (config : ActionSpaceConfig) (k : ActionTypes) :
  resolve_action_type action config = OK k <->
  exists t : Z,
    action_type action = Some t /\
    - Z.of_nat (length (action_types config)) <= t
      < Z.of_nat (length (action_types config)) /\
    action_types config
      !! Z.to_nat (t mod Z.of_nat (length (action_types config))) = Some k.
Proof.
  unfold resolve_action_type. split.
  - destruct (action_type action) as [t|]; [|discriminate].
    cbn [dict_getitem]. rewrite result_bind_OK. intros Hget.
    exists t. split; [done|]. by apply list_getitem_OK_iff.
  - intros (t & -> & Hrange & Hk). cbn [dict_getitem].
    rewrite result_bind_OK. by apply list_getitem_OK_iff.
Qed.

Lemma resolve_action_type_iff_witness :
  resolve_action_type (full_instance (-2)) all_supported_160_210
  = OK TYPE_TEXT.
Proof.
  apply (resolve_action_type_iff (full_instance (-2)) all_supported_160_210
           TYPE_TEXT).
  exists (-2). split; [reflexivity|]. split; [simpl; lia | reflexivity].
Defined.

Lemma get_action_space_domains_witness :
  "ref" ∈ schema_keys /\
  spaces.Discrete 1000000 = spaces.Discrete (MAX_REF example_constants).
Proof.
  destruct (get_action_space_domains example_constants all_supported_160_210
              all_supported_160_210_space eq_refl)
    as (Hkeys & _ & _ & Href & _).
  split.
  - apply (Hkeys "ref" (spaces.Discrete 1000000)). reflexivity.
  - apply Href. reflexivity.
Defined.
